(** * just-the-comments: extraction and export of PDF text comments

    A shallow embedding of the application component ([formatDate],
    [saveCSV], [formatTextContent], [copyCSVToClipboard],
    [handleSelectionChange] and [handleFileSelect]; the source lists it
    after the Vite configuration) together with the part of the JavaScript
    runtime these functions rely on.

    Conventions of the embedding:
    - a JavaScript string is a [string]; each [ascii] stands for the UTF-16
      code unit of the same number, so the strings covered are those whose
      code units are below 256;
    - a JavaScript number is an integer [Z] (page numbers, annotation type
      codes, time values in milliseconds);
    - the objects handed over by the PDF parser are JSON-like data: no
      functions, no getters, no prototype of their own;
    - an exception is an explicit result ([Throw]), and [Date.parse], whose
      accepted formats are left to the engine by ECMA-262, is a parameter. *)

From Stdlib Require Import ZArith List String Ascii Bool Lia DecimalString.
From Stdlib Require Import Sorting.Sorted.
Import ListNotations.

Open Scope string_scope.
Open Scope Z_scope.

(** ** The JavaScript values and string operations used by the program *)

#[local] Set Warnings "-register-all".

Module JS.

Inductive value : Type :=
| VUndefined
| VNull
| VBool (b : bool)
| VNum (n : Z)
| VStr (s : string)
| VArr (elems : list value)
| VObj (props : list (string * value)).

(** Exceptions the program can meet. *)
Inductive exn : Type :=
| TypeError
| RangeError.

Inductive completion (A : Type) : Type :=
| Normal (x : A)
| Throw (e : exn).

Arguments Normal {A} x.
Arguments Throw {A} e.

Definition bind {A B : Type} (c : completion A) (k : A -> completion B)
  : completion B :=
  match c with
  | Normal x => k x
  | Throw e => Throw e
  end.

(** ToBoolean. *)
Definition truthy (v : value) : bool :=
  match v with
  | VUndefined | VNull => false
  | VBool b => b
  | VNum n => negb (n =? 0)
  | VStr s => negb (s =? "")%string
  | VArr _ | VObj _ => true
  end.

(** [x || y]. *)
Definition or_else (x y : value) : value := if truthy x then x else y.

(** The [typeof] operator. *)
Definition typeof (v : value) : string :=
  match v with
  | VUndefined => "undefined"
  | VNull | VArr _ | VObj _ => "object"
  | VBool _ => "boolean"
  | VNum _ => "number"
  | VStr _ => "string"
  end.


(** Own property of an object kept as an association list. *)
Fixpoint lookup (k : string) (ps : list (string * value)) : value :=
  match ps with
  | [] => VUndefined
  | (k', v) :: r => if (k =? k')%string then v else lookup k r
  end.

(** [v.k] for a [v] that is neither [undefined] nor [null], and a name [k]
    that no prototype defines ([str], [text]): only an object can hold it. *)
Definition get (v : value) (k : string) : value :=
  match v with
  | VObj ps => lookup k ps
  | _ => VUndefined
  end.

(** Number::toString for an integer, written with all its digits: what
    JavaScript writes for an integer below 10^21 in absolute value, the
    page numbers and annotation type codes of a document being far below. *)
Definition number_to_string (n : Z) : string :=
  NilZero.string_of_int (Z.to_int n).

(** ToString, with Array.prototype.toString being [join(",")]. *)
Fixpoint to_string (v : value) : string :=
  match v with
  | VUndefined => "undefined"
  | VNull => "null"
  | VBool b => if b then "true" else "false"
  | VNum n => number_to_string n
  | VStr s => s
  | VArr l =>
      String.concat ","
        (map (fun e => match e with
                       | VUndefined | VNull => ""
                       | _ => to_string e
                       end) l)
  | VObj _ => "[object Object]"
  end.

(** Array.prototype.join. *)
Definition join (l : list value) (sep : string) : string :=
  String.concat sep
    (map (fun e => match e with
                   | VUndefined | VNull => ""
                   | _ => to_string e
                   end) l).

(** The double quote, code unit 34. *)
Definition dquote : ascii := "034"%char.

Definition hex_digit (n : N) : ascii :=
  if (n <? 10)%N then ascii_of_N (48 + n) else ascii_of_N (87 + n).

(** QuoteJSONString, one code unit. *)
Definition JSON_quote_char (c : ascii) : string :=
  let n := N_of_ascii c in
  if (n =? 8)%N then "\b"
  else if (n =? 9)%N then "\t"
  else if (n =? 10)%N then "\n"
  else if (n =? 12)%N then "\f"
  else if (n =? 13)%N then "\r"
  else if (n =? 34)%N then String "\" (String dquote "")
  else if (n =? 92)%N then "\\"
  else if (n <? 32)%N then
    "\u00" ++ String (hex_digit (n / 16)) (String (hex_digit (n mod 16)) "")
  else String c "".

Fixpoint JSON_quote_body (s : string) : string :=
  match s with
  | "" => ""
  | String c r => JSON_quote_char c ++ JSON_quote_body r
  end.

Definition JSON_quote (s : string) : string :=
  String dquote (JSON_quote_body s) ++ String dquote "".

(** JSON.stringify without replacer or indentation; [None] is [undefined]. *)
Fixpoint JSON_stringify (v : value) : option string :=
  match v with
  | VUndefined => None
  | VNull => Some "null"
  | VBool b => Some (if b then "true" else "false")
  | VNum n => Some (number_to_string n)
  | VStr s => Some (JSON_quote s)
  | VArr l =>
      Some ("[" ++ String.concat ","
                     (map (fun e => match JSON_stringify e with
                                    | Some s => s
                                    | None => "null"
                                    end) l) ++ "]")
  | VObj ps =>
      Some ("{" ++ String.concat ","
                     (flat_map (fun p => match JSON_stringify (snd p) with
                                         | Some s => [JSON_quote (fst p) ++ ":" ++ s]
                                         | None => []
                                         end) ps) ++ "}")
  end.

(** The result of [JSON.stringify] as a value. *)
Definition stringify (v : value) : value :=
  match JSON_stringify v with
  | Some s => VStr s
  | None => VUndefined
  end.

(** WhiteSpace and LineTerminator code units below 256. *)
Definition is_space (c : ascii) : bool :=
  let n := N_of_ascii c in
  ((9 <=? n) && (n <=? 13) || (n =? 32) || (n =? 160))%N.

Fixpoint trimStart (s : string) : string :=
  match s with
  | "" => ""
  | String c r => if is_space c then trimStart r else s
  end.

Fixpoint trimEnd (s : string) : string :=
  match s with
  | "" => ""
  | String c r =>
      match trimEnd r with
      | "" => if is_space c then "" else String c ""
      | r' => String c r'
      end
  end.

(** String.prototype.trim. *)
Definition trim (s : string) : string := trimEnd (trimStart s).

Fixpoint drop (n : nat) (s : string) : string :=
  match n, s with
  | O, _ => s
  | S n', String _ r => drop n' r
  | S _, "" => ""
  end.

(** String.prototype.includes. *)
Fixpoint includes (s sub : string) : bool :=
  String.prefix sub s ||
  match s with
  | "" => false
  | String _ r => includes r sub
  end.

(** String.prototype.replace with a string pattern and a replacement free
    of [$]: the first occurrence only. *)
Fixpoint replace (s pat rep : string) : string :=
  if String.prefix pat s then rep ++ drop (String.length pat) s
  else match s with
       | "" => ""
       | String c r => String c (replace r pat rep)
       end.

(** [s.replace(/c/g, rep)] for a single character [c]. *)
Fixpoint replace_all (s : string) (c : ascii) (rep : string) : string :=
  match s with
  | "" => ""
  | String x r =>
      (if (x =? c)%char then rep else String x "") ++ replace_all r c rep
  end.

End JS.

(** ** Time values: the date arithmetic of ECMA-262 (section 21.4.1) *)

Module JSDate.

Definition msPerDay : Z := 86400000.
Definition msPerHour : Z := 3600000.
Definition msPerMinute : Z := 60000.
Definition msPerSecond : Z := 1000.

Definition Day (t : Z) : Z := t / msPerDay.
Definition TimeWithinDay (t : Z) : Z := t mod msPerDay.

Definition DaysInYear (y : Z) : Z :=
  if negb (y mod 4 =? 0) then 365
  else if negb (y mod 100 =? 0) then 366
  else if negb (y mod 400 =? 0) then 365
  else 366.

Definition DayFromYear (y : Z) : Z :=
  365 * (y - 1970) + (y - 1969) / 4 - (y - 1901) / 100 + (y - 1601) / 400.

Definition TimeFromYear (y : Z) : Z := msPerDay * DayFromYear y.

(** The year of day number [d]: the largest [y] with [DayFromYear y <= d],
    computed from an estimate that is off by one at most
    (lemma [YearFromDay_spec]). *)
Definition YearFromDay (d : Z) : Z :=
  let e := 1970 + (400 * d) / 146097 in
  if d <? DayFromYear e then e - 1
  else if DayFromYear (e + 1) <=? d then e + 1
  else e.

Definition YearFromTime (t : Z) : Z := YearFromDay (Day t).

Definition InLeapYear (t : Z) : Z := DaysInYear (YearFromTime t) - 365.

Definition DayWithinYear (t : Z) : Z := Day t - DayFromYear (YearFromTime t).

(** Day within the year on which month [m] (0 to 11) starts, [leap] being 0
    or 1: the table of MonthFromTime. *)
Definition MonthStart (leap m : Z) : Z :=
  if m <=? 0 then 0
  else if m =? 1 then 31
  else if m =? 2 then 59 + leap
  else if m =? 3 then 90 + leap
  else if m =? 4 then 120 + leap
  else if m =? 5 then 151 + leap
  else if m =? 6 then 181 + leap
  else if m =? 7 then 212 + leap
  else if m =? 8 then 243 + leap
  else if m =? 9 then 273 + leap
  else if m =? 10 then 304 + leap
  else if m =? 11 then 334 + leap
  else 365 + leap.

Definition MonthFromTime (t : Z) : Z :=
  let d := DayWithinYear t in
  let leap := InLeapYear t in
  if d <? 31 then 0
  else if d <? 59 + leap then 1
  else if d <? 90 + leap then 2
  else if d <? 120 + leap then 3
  else if d <? 151 + leap then 4
  else if d <? 181 + leap then 5
  else if d <? 212 + leap then 6
  else if d <? 243 + leap then 7
  else if d <? 273 + leap then 8
  else if d <? 304 + leap then 9
  else if d <? 334 + leap then 10
  else 11.

Definition DateFromTime (t : Z) : Z :=
  DayWithinYear t - MonthStart (InLeapYear t) (MonthFromTime t) + 1.

Definition HourFromTime (t : Z) : Z := (t / msPerHour) mod 24.
Definition MinFromTime (t : Z) : Z := (t / msPerMinute) mod 60.
Definition SecFromTime (t : Z) : Z := (t / msPerSecond) mod 60.
Definition msFromTime (t : Z) : Z := t mod msPerSecond.

Definition MakeTime (hour min sec ms : Z) : Z :=
  hour * msPerHour + min * msPerMinute + sec * msPerSecond + ms.

(** MakeDay: the day number of the first of month [month mod 12] in year
    [year + floor(month / 12)], moved by [date - 1] days. *)
Definition MakeDay (year month date : Z) : Z :=
  let ym := year + month / 12 in
  let mn := month mod 12 in
  DayFromYear ym + MonthStart (DaysInYear ym - 365) mn + date - 1.

Definition MakeDate (day time : Z) : Z := day * msPerDay + time.

Definition MakeFullYear (year : Z) : Z :=
  if (0 <=? year) && (year <=? 99) then 1900 + year else year.

(** TimeClip; [None] is NaN. *)
Definition TimeClip (t : Z) : option Z :=
  if Z.abs t <=? 8640000000000000 then Some t else None.

(** [Date.UTC(year, month, date, hours, minutes, seconds)] on integers. *)
Definition UTC (year month date hours minutes seconds : Z) : option Z :=
  TimeClip (MakeDate (MakeDay (MakeFullYear year) month date)
                     (MakeTime hours minutes seconds 0)).

Definition digit_char (d : Z) : ascii := ascii_of_N (48 + Z.to_N d).

(** The last [w] decimal digits of [n], most significant first. *)
Fixpoint digits (w : nat) (n : Z) : string :=
  match w with
  | O => ""
  | S w' => digits w' (n / 10) ++ String (digit_char (n mod 10)) ""
  end.

(** The year of the Date Time String Format: four digits, or a sign and six
    digits outside 0..9999. *)
Definition year_string (y : Z) : string :=
  if (0 <=? y) && (y <=? 9999) then digits 4 y
  else if y <? 0 then "-" ++ digits 6 (- y)
  else "+" ++ digits 6 y.

Definition iso_string (t : Z) : string :=
  year_string (YearFromTime t) ++ "-" ++ digits 2 (MonthFromTime t + 1)
    ++ "-" ++ digits 2 (DateFromTime t)
    ++ "T" ++ digits 2 (HourFromTime t)
    ++ ":" ++ digits 2 (MinFromTime t)
    ++ ":" ++ digits 2 (SecFromTime t)
    ++ "." ++ digits 3 (msFromTime t) ++ "Z".

(** Date.prototype.toISOString on a Date whose time value is [tv]. *)
Definition toISOString (tv : option Z) : JS.completion string :=
  match tv with
  | None => JS.Throw JS.RangeError
  | Some t => JS.Normal (iso_string t)
  end.

End JSDate.

Import JS JSDate.

(** ** The Extractor: [formatDate] and [handleFileSelect] *)

(** [interface CommentEntry].  [Author] is whatever value the author chain
    picked up: the annotation is untyped. *)
Record CommentEntry : Type := {
  Page : Z;
  Author : value;
  Comment : string;
  Modified : string
}.

(** An annotation as [page.getAnnotations()] yields it. *)
Definition annotation : Type := list (string * value).

(** The parsed document: the annotations of page 1, of page 2, ... *)
Definition pdf_document : Type := list (list annotation).

Definition prop (a : annotation) (k : string) : value := lookup k a.

(** [\d] *)
Definition is_digit (c : ascii) : bool :=
  let n := N_of_ascii c in ((48 <=? n) && (n <=? 57))%N.

(** [\d{k}] at the head of [s]: the digits and the rest. *)
Fixpoint take_digits (k : nat) (s : string) : option (string * string) :=
  match k, s with
  | O, _ => Some ("", s)
  | S k', String c r =>
      if is_digit c then
        match take_digits k' r with
        | Some (ds, rest) => Some (String c ds, rest)
        | None => None
        end
      else None
  | S _, "" => None
  end.

(** The six capture groups of the date pattern. *)
Record date_groups : Type := {
  g_y : string; g_mo : string; g_d : string;
  g_h : string; g_mi : string; g_s : string
}.

(** [D:(\d{4})(\d{2})(\d{2})(\d{2})(\d{2})(\d{2})] matched at the head of [s]. *)
Definition date_match_here (s : string) : option date_groups :=
  match s with
  | String "D" (String ":" r0) =>
      match take_digits 4 r0 with
      | Some (y, r1) =>
      match take_digits 2 r1 with
      | Some (mo, r2) =>
      match take_digits 2 r2 with
      | Some (d, r3) =>
      match take_digits 2 r3 with
      | Some (h, r4) =>
      match take_digits 2 r4 with
      | Some (mi, r5) =>
      match take_digits 2 r5 with
      | Some (s, _) =>
          Some {| g_y := y; g_mo := mo; g_d := d;
                  g_h := h; g_mi := mi; g_s := s |}
      | None => None end
      | None => None end
      | None => None end
      | None => None end
      | None => None end
      | None => None end
  | _ => None
  end.

(** [RegExp.prototype.exec] for that pattern: the leftmost match. *)
Fixpoint date_regex_exec (s : string) : option date_groups :=
  match date_match_here s with
  | Some m => Some m
  | None =>
      match s with
      | "" => None
      | String _ r => date_regex_exec r
      end
  end.

(** Unary [+] on a string of decimal digits. *)
Fixpoint digits_value (acc : Z) (s : string) : Z :=
  match s with
  | "" => acc
  | String c r => digits_value (10 * acc + (Z.of_N (N_of_ascii c) - 48)) r
  end.

Definition to_number (s : string) : Z := digits_value 0 s.

Definition strict_eq_string (v : value) (s : string) : bool :=
  match v with
  | VStr s' => (s' =? s)%string
  | _ => false
  end.

Section Extractor.

(** [Date.parse]: the time value of a string, [None] for NaN. *)
Variable Date_parse : string -> option Z.

(** The time value of [new Date(v)] for one argument. *)
Definition new_Date (v : value) : option Z :=
  match v with
  | VStr s => Date_parse s
  | VArr _ | VObj _ => Date_parse (to_string v)
  | VNum n => TimeClip n
  | VBool b => Some (if b then 1 else 0)
  | VNull => Some 0
  | VUndefined => None
  end.

Definition formatDate (ts : value) : completion string :=
  if negb (truthy ts) then Normal ""
  else
    match date_regex_exec (to_string ts) with
    | Some m =>
        let date :=
          UTC (to_number (g_y m)) (to_number (g_mo m) - 1) (to_number (g_d m))
              (to_number (g_h m)) (to_number (g_mi m)) (to_number (g_s m)) in
        bind (toISOString date)
             (fun iso => Normal (replace (replace iso "T" " ") ".000Z" "Z"))
    | None => toISOString (new_Date ts)
    end.

(** The value of the variable [contents] after the content chain. *)
Definition extract_contents (a : annotation) : value :=
  let c := prop a "contents" in
  if (typeof c =? "string")%string then c
  else if truthy c && (typeof c =? "object")%string then
    if truthy (get c "str") then get c "str"
    else if truthy (get c "text") then get c "text"
    else match c with
         | VArr l => VStr (join l " ")
         | _ => stringify c
         end
  else
    let o := prop a "contentsObj" in
    if truthy o then
      if (typeof o =? "string")%string then o
      else if truthy (get o "str") then get o "str"
      else stringify o
    else VStr "".

(** The value of the variable [author] after the author chain. *)
Definition extract_author (a : annotation) : value :=
  if truthy (prop a "titleObj") && truthy (get (prop a "titleObj") "str")
  then get (prop a "titleObj") "str"
  else if truthy (prop a "title") then prop a "title"
  else if truthy (prop a "T") then
    if (typeof (prop a "T") =? "string")%string then prop a "T"
    else or_else (get (prop a "T") "str") (VStr "")
  else if truthy (prop a "user") then prop a "user"
  else if truthy (prop a "author") then prop a "author"
  else if truthy (prop a "userName") then prop a "userName"
  else VStr "".

Definition extract_subtype (a : annotation) : value :=
  or_else (or_else (prop a "subtype") (prop a "annotationType")) (VStr "").

Definition extract_mod (a : annotation) : value :=
  or_else (or_else (or_else (prop a "modificationDate") (prop a "modDate"))
                   (prop a "modified")) (VStr "").

(** One turn of the inner loop: the entry pushed on [found], if any. *)
Definition process_annotation (pageNum : Z) (a : annotation)
  : completion (option CommentEntry) :=
  if negb (strict_eq_string (extract_subtype a) "Text") then Normal None
  else
    let contents := extract_contents a in
    let author := extract_author a in
    let mod_ := extract_mod a in
    if truthy contents then
      match contents with
      | VStr s =>
          if negb (trim s =? "")%string then
            bind (formatDate mod_)
                 (fun m => Normal (Some {| Page := pageNum; Author := author;
                                           Comment := trim s; Modified := m |}))
          else Normal None
      | _ => Throw TypeError
      end
    else Normal None.

(** [for (const a of annots)]. *)
Fixpoint process_annots (pageNum : Z) (annots : list annotation)
    (found : list CommentEntry) : completion (list CommentEntry) :=
  match annots with
  | [] => Normal found
  | a :: rest =>
      bind (process_annotation pageNum a)
           (fun o => process_annots pageNum rest
                       match o with
                       | Some c => (found ++ [c])%list
                       | None => found
                       end)
  end.

(** [for (let pageNum = ...; pageNum <= pdf.numPages; pageNum++)]. *)
Fixpoint process_pages (pageNum : Z) (pages : list (list annotation))
    (found : list CommentEntry) : completion (list CommentEntry) :=
  match pages with
  | [] => Normal found
  | annots :: rest =>
      bind (process_annots pageNum annots found)
           (process_pages (pageNum + 1) rest)
  end.

(** The body of the [try] block of [handleFileSelect]. *)
Definition extract (pdf : pdf_document) : completion (list CommentEntry) :=
  process_pages 1 pdf [].

(** What a load leaves in the component state. *)
Record load_state : Type := {
  comments : list CommentEntry;
  error : option exn;
  noCommentsWarning : bool
}.

Definition handleFileSelect (pdf : pdf_document) : load_state :=
  match extract pdf with
  | Normal found =>
      {| comments := found; error := None;
         noCommentsWarning := (List.length found =? 0)%nat |}
  | Throw e =>
      {| comments := []; error := Some e; noCommentsWarning := false |}
  end.

End Extractor.

(** ** The Formatter: [saveCSV], [formatTextContent], [copyCSVToClipboard] *)

Definition COLUMN_FIELDS : list string := ["Page"; "Author"; "Modified"; "Comment"].

(** [columnVisibility]: the keys of the object in their order, each with
    its flag. *)
Definition visibility : Type := list (string * bool).

Definition DEFAULT_COLUMNS : visibility :=
  [("Page", true); ("Author", false); ("Modified", false); ("Comment", true);
   ("__check__", true)].

(** [newVisibility[field] = flag] on the keys in their order: the flag of
    an own key is replaced where it stands, a new key goes last. *)
Fixpoint set_flag (field : string) (flag : bool) (vis : visibility)
  : visibility :=
  match vis with
  | [] => [(field, flag)]
  | (k, b) :: r =>
      if (k =? field)%string then (k, flag) :: r
      else (k, b) :: set_flag field flag r
  end.

(** [handleChange] of the column selector: the visibility it hands to
    [setColumnVisibility] when the fields [value] are ticked. *)
Definition handleChange (columnVisibility : visibility) (value : list string)
  : visibility :=
  let newVisibility := columnVisibility in
  let newVisibility := map (fun kv => (fst kv, false)) newVisibility in
  let newVisibility :=
    fold_left (fun vis field => set_flag field true vis) value newVisibility in
  set_flag "Comment" true newVisibility.

(** [Object.keys(columnVisibility).filter((col) => columnVisibility[col]
    && col !== '__check__')]. *)
Definition selectedFields (columnVisibility : visibility) : list string :=
  map fst
    (filter (fun kv => snd kv && negb (fst kv =? "__check__")%string)
       columnVisibility).

(** [comments[index]]; [None] is [undefined]. *)
Definition at_index (comments : list CommentEntry) (index : Z)
  : option CommentEntry :=
  if index <? 0 then None else nth_error comments (Z.to_nat index).

(** [.filter(Boolean)] on an array of entries and [undefined]s. *)
Fixpoint filter_Boolean (l : list (option CommentEntry)) : list CommentEntry :=
  match l with
  | [] => []
  | Some c :: r => c :: filter_Boolean r
  | None :: r => filter_Boolean r
  end.

(** [const selectedComments = selectedRows.length > 0 ? ... : comments],
    the same in the three export functions. *)
Definition selectedComments (comments : list CommentEntry)
    (selectedRows : list Z) : list CommentEntry :=
  if (0 <? List.length selectedRows)%nat
  then filter_Boolean (map (at_index comments) selectedRows)
  else comments.

(** [(c as any)[field]]. *)
Definition field_value (c : CommentEntry) (field : string) : value :=
  if (field =? "Page")%string then VNum (Page c)
  else if (field =? "Author")%string then Author c
  else if (field =? "Modified")%string then VStr (Modified c)
  else if (field =? "Comment")%string then VStr (Comment c)
  else VUndefined.

(** [(c as any)[field]?.toString()], or the empty string when that is
    falsy. *)
Definition field_string (c : CommentEntry) (field : string) : string :=
  match field_value c field with
  | VUndefined | VNull => ""
  | v => if (to_string v =? "")%string then "" else to_string v
  end.

Definition DQ : string := String dquote "".
Definition LF : string := String "010" "".
Definition CR : string := String "013" "".

(** The template literal of both escape helpers: [value] between two
    double quotes, each double quote inside it doubled. *)
Definition quoted (value : string) : string :=
  DQ ++ replace_all value dquote (DQ ++ DQ) ++ DQ.

Definition escapeCSVField (value fieldName : string) : string :=
  if (value =? "")%string then ""
  else if (fieldName =? "Comment")%string then quoted value
  else if includes value "," || includes value DQ
          || includes value LF || includes value CR
  then quoted value
  else value.

Definition escapeTSVField (value : string) : string :=
  if (value =? "")%string then DQ ++ DQ else quoted value.

(** The rows of the CSV text, for the entries [cs]. *)
Definition csv_rows (fields : list string) (cs : list CommentEntry)
  : list string :=
  map (fun c =>
         String.concat ","
           (map (fun field => escapeCSVField (field_string c field) field)
                fields))
      cs.

(** [saveCSV]: the text put in the blob, [None] when the function returns
    before saving. *)
Definition saveCSV (comments : list CommentEntry) (selectedRows : list Z)
    (columnVisibility : visibility) : option string :=
  let fields := selectedFields columnVisibility in
  if (List.length fields =? 0)%nat then None
  else
    let rows := csv_rows fields (selectedComments comments selectedRows) in
    Some (String.concat LF (String.concat "," fields :: rows)).

(** The line of one entry in [formatTextContent]. *)
Definition text_line (fields : list string) (c : CommentEntry) : string :=
  let parts0 : list value := [] in
  let parts1 :=
    if existsb (String.eqb "Page") fields
    then (parts0 ++ [VStr ("P" ++ number_to_string (Page c))])%list
    else parts0 in
  let parts2 :=
    if existsb (String.eqb "Author") fields && truthy (Author c)
    then (parts1 ++ [Author c])%list
    else parts1 in
  let parts3 :=
    if existsb (String.eqb "Modified") fields && truthy (VStr (Modified c))
    then (parts2 ++ [VStr (Modified c)])%list
    else parts2 in
  let prefix :=
    if (0 <? List.length parts3)%nat then join parts3 ", " else "" in
  if existsb (String.eqb "Comment") fields then
    if negb (prefix =? "")%string then prefix ++ " - " ++ Comment c
    else Comment c
  else prefix.

Definition formatTextContent (comments : list CommentEntry)
    (selectedRows : list Z) (columnVisibility : visibility) : string :=
  let fields := selectedFields columnVisibility in
  if (List.length fields =? 0)%nat then ""
  else
    let lines := map (text_line fields) (selectedComments comments selectedRows) in
    String.concat (LF ++ LF) lines.

Definition TAB : string := String "009" "".

(** [copyCSVToClipboard]: the text written to the clipboard, [None] when
    the function returns before writing. *)
Definition copyCSVToClipboard (comments : list CommentEntry)
    (selectedRows : list Z) (columnVisibility : visibility) : option string :=
  let fields := selectedFields columnVisibility in
  if (List.length fields =? 0)%nat then None
  else
    let header := String.concat TAB (map escapeTSVField fields) in
    let rows :=
      map (fun c =>
             String.concat TAB
               (map (fun field => escapeTSVField (field_string c field)) fields))
          (selectedComments comments selectedRows) in
    Some (String.concat LF (header :: rows)).

(** The selection model of the data grid. *)
Inductive GridRowSelectionModel : Type :=
| SelInclude (ids : list Z)
| SelExclude (ids : list Z).

(** [handleSelectionChange]: the new value of [selectedRows]. *)
Definition handleSelectionChange (comments_length : nat)
    (selectionModel : GridRowSelectionModel) : list Z :=
  match selectionModel with
  | SelInclude ids => ids
  | SelExclude ids =>
      filter (fun i => negb (existsb (Z.eqb i) ids))
             (map Z.of_nat (seq 0 comments_length))
  end.

(** ** An instance of [Date.parse]

    The closed examples below need an engine.  This one reads the UTC forms
    of the Date Time String Format of ECMA-262 ([YYYY-MM-DD], alone or
    followed by [THH:mm:ssZ] or [THH:mm:ss.sssZ]) and, having no fallback
    format, answers NaN to every other string. *)

(** Number of days of month [m] (1 to 12) of year [y], from the table of
    MonthFromTime. *)
Definition DaysInMonth (y m : Z) : Z :=
  MonthStart (DaysInYear y - 365) m - MonthStart (DaysInYear y - 365) (m - 1).

Definition iso_time_of_day (s : string) : option Z :=
  match take_digits 2 s with
  | Some (h, String ":" r1) =>
      match take_digits 2 r1 with
      | Some (mi, String ":" r2) =>
          match take_digits 2 r2 with
          | Some (sec, rest) =>
              let ms :=
                match rest with
                | String "Z" "" => Some 0
                | String "." r3 =>
                    match take_digits 3 r3 with
                    | Some (f, String "Z" "") => Some (to_number f)
                    | _ => None
                    end
                | _ => None
                end in
              match ms with
              | Some f =>
                  if (to_number h <=? 23) && (to_number mi <=? 59)
                     && (to_number sec <=? 59)
                  then Some (MakeTime (to_number h) (to_number mi)
                                      (to_number sec) f)
                  else None
              | None => None
              end
          | None => None
          end
      | _ => None
      end
  | _ => None
  end.

Definition iso_Date_parse (s : string) : option Z :=
  match take_digits 4 s with
  | Some (y, String "-" r1) =>
      match take_digits 2 r1 with
      | Some (mo, String "-" r2) =>
          match take_digits 2 r2 with
          | Some (d, rest) =>
              let Y := to_number y in
              let M := to_number mo in
              let D := to_number d in
              if (1 <=? M) && (M <=? 12) && (1 <=? D) && (D <=? DaysInMonth Y M)
              then
                match rest with
                | "" => Some (MakeDate (MakeDay Y (M - 1) D) 0)
                | String "T" r3 =>
                    match iso_time_of_day r3 with
                    | Some t => Some (MakeDate (MakeDay Y (M - 1) D) t)
                    | None => None
                    end
                | _ => None
                end
              else None
          | None => None
          end
      | _ => None
      end
  | _ => None
  end.

(** ** The specification's own wording, for comparison with the code *)

(** The subset the specification describes for a selection: the entries
    whose index is selected, in the order of [comments]; every entry when
    nothing is selected.  [i] is the index of the head of [cs]. *)
Fixpoint spec_subset_from (i : Z) (cs : list CommentEntry) (selection : list Z)
  : list CommentEntry :=
  match cs with
  | [] => []
  | c :: r =>
      if existsb (Z.eqb i) selection
      then c :: spec_subset_from (i + 1) r selection
      else spec_subset_from (i + 1) r selection
  end.

Definition spec_subset (cs : list CommentEntry) (selection : list Z)
  : list CommentEntry :=
  match selection with
  | [] => cs
  | _ => spec_subset_from 0 cs selection
  end.

Definition as_string (v : value) : option string :=
  match v with
  | VStr s => Some s
  | _ => None
  end.

Definition object_shaped (v : value) : bool :=
  match v with
  | VArr _ | VObj _ => true
  | _ => false
  end.



(** The chain as amended: the contents object, when it is there, is
    unwrapped as itself if a string, as its string sub-field, or else as
    its JSON text. *)
Definition amended_comment_sources (a : annotation) : list (option string) :=
  let c := prop a "contents" in
  let o := prop a "contentsObj" in
  [ as_string c;
    if object_shaped c then as_string (get c "str") else None;
    if object_shaped c then as_string (get c "text") else None;
    match c with VArr l => Some (join l " ") | _ => None end;
    if object_shaped c then JSON_stringify c else None;
    as_string o;
    as_string (get o "str");
    if truthy o && negb (typeof o =? "string")%string
    then JSON_stringify o else None ].


(** The first source that yields a non-empty string. *)
Fixpoint first_nonempty (l : list (option string)) : option string :=
  match l with
  | [] => None
  | Some s :: r => if (s =? "")%string then first_nonempty r else Some s
  | None :: r => first_nonempty r
  end.









(** The human-readable rendering as the specification words it. *)
Definition spec_prefix_parts (fields : list string) (c : CommentEntry)
  : list string :=
  ((if existsb (String.eqb "Page") fields
    then [("P" ++ number_to_string (Page c))%string] else []) ++
   (if existsb (String.eqb "Author") fields && truthy (Author c)
    then [to_string (Author c)] else []) ++
   (if existsb (String.eqb "Modified") fields && negb (Modified c =? "")%string
    then [Modified c] else []))%list.

Definition spec_text_line (fields : list string) (c : CommentEntry) : string :=
  let prefix := String.concat ", " (spec_prefix_parts fields c) in
  if existsb (String.eqb "Comment") fields then
    if (prefix =? "")%string then Comment c
    else prefix ++ " - " ++ Comment c
  else prefix.

Definition spec_text (fields : list string) (cs : list CommentEntry) : string :=
  String.concat (LF ++ LF) (map (spec_text_line fields) cs).

(** The entries one page contributes, annotation by annotation. *)
Definition page_entries (Date_parse : string -> option Z) (pageNum : Z)
    (annots : list annotation) : list CommentEntry :=
  flat_map (fun a => match process_annotation Date_parse pageNum a with
                     | Normal (Some c) => [c]
                     | _ => []
                     end) annots.

(** Occurrence of a code unit in a string. *)
Fixpoint occurs (ch : ascii) (s : string) : Prop :=
  match s with
  | "" => False
  | String x r => x = ch \/ occurs ch r
  end.

(** A string with each double quote written twice. *)
Fixpoint doubled_quotes (s : string) : string :=
  match s with
  | "" => ""
  | String x r =>
      if (x =? dquote)%char then String dquote (String dquote (doubled_quotes r))
      else String x (doubled_quotes r)
  end.

(** One of the code units [chars] stands in [s]. *)
Fixpoint holds_any (chars : list ascii) (s : string) : bool :=
  match s with
  | "" => false
  | String x r => existsb (Ascii.eqb x) chars || holds_any chars r
  end.

(** A field of the CSV text as the specification words it: the comment
    always between double quotes, any other field between double quotes
    when it holds a comma, a double quote, a line feed or a carriage
    return, and as it stands otherwise. *)
Definition spec_csv_field (field value : string) : string :=
  if (field =? "Comment")%string then DQ ++ doubled_quotes value ++ DQ
  else if holds_any [","%char; dquote; "010"%char; "013"%char] value
       then DQ ++ doubled_quotes value ++ DQ
       else value.

(** The value of a field of an entry as a text: the page in decimal, the
    author, the date and the comment as they are, nothing for an author
    that is missing or for a name that is no field. *)
Definition spec_field_text (c : CommentEntry) (field : string) : string :=
  if (field =? "Page")%string then number_to_string (Page c)
  else if (field =? "Author")%string then
    match Author c with
    | VUndefined | VNull => ""
    | VStr s => s
    | v => to_string v
    end
  else if (field =? "Modified")%string then Modified c
  else if (field =? "Comment")%string then Comment c
  else "".

(** The CSV text as the specification words it: the header of the field
    names, then one row per entry, fields joined by commas, rows by line
    feeds. *)
Definition spec_csv (fields : list string) (cs : list CommentEntry) : string :=
  String.concat LF
    (String.concat "," fields
       :: map (fun c =>
                 String.concat ","
                   (map (fun field =>
                           spec_csv_field field (spec_field_text c field))
                        fields))
              cs).

(** ** Sample data *)

Definition alice_note : annotation :=
  [("subtype", VStr "Text"); ("contents", VStr "Looks good");
   ("titleObj", VObj [("str", VStr "Alice")])].

Definition fix_note : annotation :=
  [("subtype", VStr "Text"); ("contents", VStr "Fix this");
   ("title", VStr ""); ("modificationDate", VStr "D:20230101120000")].

Definition highlight : annotation :=
  [("subtype", VStr "Highlight"); ("annotationType", VNum 9);
   ("contents", VStr "marked")].

Definition two_pages : pdf_document := [[alice_note; highlight]; [fix_note]].

Definition entry (p : Z) (who what when : string) : CommentEntry :=
  {| Page := p; Author := VStr who; Comment := what; Modified := when |}.

Definition two_entries : list CommentEntry :=
  [entry 1 "Alice" "Looks good" ""; entry 2 "" "Fix this" "2023-01-01 12:00:00Z"].

Definition page_author_comment : visibility :=
  [("Page", true); ("Author", true); ("Modified", false); ("Comment", true);
   ("__check__", true)].

Definition all_columns : visibility :=
  [("Page", true); ("Author", true); ("Modified", true); ("Comment", true);
   ("__check__", true)].

Definition no_columns : visibility :=
  [("Page", false); ("Author", false); ("Modified", false); ("Comment", false);
   ("__check__", true)].

(** The entries a run of pages contributes, [pageNum] being the number of
    the first of them. *)
Fixpoint document_entries (Date_parse : string -> option Z) (pageNum : Z)
    (pages : list (list annotation)) : list CommentEntry :=
  match pages with
  | [] => []
  | annots :: rest =>
      (page_entries Date_parse pageNum annots
         ++ document_entries Date_parse (pageNum + 1) rest)%list
  end.

(** Ascending page number. *)
Definition page_le (c1 c2 : CommentEntry) : Prop := Page c1 <= Page c2.

(** A text comment whose modification date no engine can read. *)
Definition undated_note : annotation :=
  [("subtype", VStr "Text"); ("contents", VStr "Second thought");
   ("modificationDate", VStr "unknown")].

(** What a load leaves when the [try] block threw [e]. *)
Definition failed_load (e : exn) : load_state :=
  {| comments := []; error := Some e; noCommentsWarning := false |}.

Definition five_entries : list CommentEntry :=
  [entry 1 "" "a" ""; entry 1 "" "b" ""; entry 2 "" "c" "";
   entry 3 "" "d" ""; entry 3 "" "e" ""].

(** [Some c] as the one-element list, [None] as the empty one. *)
Definition opt_list (o : option CommentEntry) : list CommentEntry :=
  match o with
  | Some c => [c]
  | None => []
  end.








(** Every code unit of [s] satisfies [P]. *)
Fixpoint all_chars (P : ascii -> bool) (s : string) : bool :=
  match s with
  | "" => true
  | String c r => P c && all_chars P r
  end.

(** ** More of the component: file names, text export, buttons, dragging *)

(** [fileName.replace(/\.[^/.]+$/, '')]: the leftmost dot that is followed,
    up to the end of the name, by one or more code units other than a
    slash and a dot, is removed with what follows it. *)
Fixpoint strip_extension (s : string) : string :=
  match s with
  | "" => ""
  | String c r =>
      if (c =? ".")%char && negb (r =? "")%string
         && all_chars (fun x => negb ((x =? "/") || (x =? "."))%char) r
      then ""
      else String c (strip_extension r)
  end.

(** [const baseFileName = fileName ? ... : "file"]. *)
Definition baseFileName (fileName : string) : string :=
  if negb (fileName =? "")%string then strip_extension fileName else "file".

(** [saveCSV] with the name it gives the file: the pair handed to
    [saveAs], [None] when nothing is saved. *)
Definition saveCSV_file (comments : list CommentEntry) (selectedRows : list Z)
    (columnVisibility : visibility) (fileName : string)
  : option (string * string) :=
  match saveCSV comments selectedRows columnVisibility with
  | Some csv => Some (csv, baseFileName fileName ++ "_comments.csv")
  | None => None
  end.

(** [saveTXT]: the text and the file name handed to [saveAs], [None] when
    the text is empty. *)
Definition saveTXT (comments : list CommentEntry) (selectedRows : list Z)
    (columnVisibility : visibility) (fileName : string)
  : option (string * string) :=
  let text := formatTextContent comments selectedRows columnVisibility in
  if (text =? "")%string then None
  else Some (text, baseFileName fileName ++ "_comments.txt").

(** What [copyToClipboard] ends with. *)
Inductive copy_outcome : Type :=
| NothingCopied
| Copied (text : string)
| Alerted (message : string).

(** [copyToClipboard]; [clipboard_ok] tells whether
    [navigator.clipboard.writeText] resolves. *)
Definition copyToClipboard (clipboard_ok : bool)
    (comments : list CommentEntry) (selectedRows : list Z)
    (columnVisibility : visibility) : copy_outcome :=
  let text := formatTextContent comments selectedRows columnVisibility in
  if (text =? "")%string then NothingCopied
  else if clipboard_ok then Copied text
  else Alerted ("Your browser doesn't support clipboard access. Here's the text to copy manually:"
                  ++ LF ++ LF ++ text).

(** The [disabled] attribute of the Copy and Save buttons:
    [comments.length === 0 ||
     Object.values(columnVisibility).every(visible => !visible)]. *)
Definition export_disabled (comments : list CommentEntry)
    (columnVisibility : visibility) : bool :=
  (List.length comments =? 0)%nat
  || forallb (fun kv => negb (snd kv)) columnVisibility.

(** The window-level drag handlers: [dragCounter] of the effect and the
    [isDragOverlay] state. *)
Record drag_state : Type := {
  dragCounter : Z;
  isDragOverlay : bool
}.

(** The events the handlers are registered for; [has_items] is
    [e.dataTransfer?.items && e.dataTransfer.items.length > 0]. *)
Inductive drag_event : Type :=
| DragEnter (has_items : bool)
| DragLeave
| DragOver
| Drop.

Definition handleWindowDrag (s : drag_state) (e : drag_event) : drag_state :=
  match e with
  | DragEnter has_items =>
      {| dragCounter := dragCounter s + 1;
         isDragOverlay := if has_items then true else isDragOverlay s |}
  | DragLeave =>
      {| dragCounter := dragCounter s - 1;
         isDragOverlay :=
           if dragCounter s - 1 =? 0 then false else isDragOverlay s |}
  | DragOver => s
  | Drop => {| dragCounter := 0; isDragOverlay := false |}
  end.

Definition drag_start : drag_state :=
  {| dragCounter := 0; isDragOverlay := false |}.

(** A run of events in which no [dragleave] comes without a [dragenter]
    before it, [depth] being the number of entered targets not yet left. *)
Fixpoint leaves_follow_enters (depth : Z) (events : list drag_event) : Prop :=
  match events with
  | [] => True
  | DragEnter _ :: r => leaves_follow_enters (depth + 1) r
  | DragLeave :: r => 1 <= depth /\ leaves_follow_enters (depth - 1) r
  | DragOver :: r => leaves_follow_enters depth r
  | Drop :: r => leaves_follow_enters 0 r
  end.

(** ** A reader of delimiter-separated text

    The usual quoting rules: fields separated by [sep], records by line
    feeds; a field that starts with a double quote runs to the next double
    quote that is not doubled, a doubled one standing for one double quote.
    [None] when the text breaks these rules. *)

Inductive read_mode : Type :=
| AtStart
| InPlain
| InQuoted
| AfterQuote.

Definition push_char (c : ascii) (t : option (list (list string)))
  : option (list (list string)) :=
  match t with
  | Some ((f :: fs) :: rs) => Some ((String c f :: fs) :: rs)
  | _ => None
  end.

Definition new_field (t : option (list (list string)))
  : option (list (list string)) :=
  match t with
  | Some (fs :: rs) => Some (("" :: fs) :: rs)
  | _ => None
  end.

Definition new_row (t : option (list (list string)))
  : option (list (list string)) :=
  match t with
  | Some rs => Some ([""] :: rs)
  | None => None
  end.

Fixpoint read_table (sep : ascii) (m : read_mode) (s : string)
  : option (list (list string)) :=
  match s with
  | "" =>
      match m with
      | InQuoted => None
      | _ => Some [[""]]
      end
  | String c r =>
      match m with
      | AtStart =>
          if (c =? dquote)%char then read_table sep InQuoted r
          else if (c =? sep)%char then new_field (read_table sep AtStart r)
          else if (c =? "010")%char then new_row (read_table sep AtStart r)
          else push_char c (read_table sep InPlain r)
      | InPlain =>
          if (c =? dquote)%char then None
          else if (c =? sep)%char then new_field (read_table sep AtStart r)
          else if (c =? "010")%char then new_row (read_table sep AtStart r)
          else push_char c (read_table sep InPlain r)
      | InQuoted =>
          if (c =? dquote)%char then read_table sep AfterQuote r
          else push_char c (read_table sep InQuoted r)
      | AfterQuote =>
          if (c =? dquote)%char
          then push_char dquote (read_table sep InQuoted r)
          else if (c =? sep)%char then new_field (read_table sep AtStart r)
          else if (c =? "010")%char then new_row (read_table sep AtStart r)
          else None
      end
  end.

(** A field the reader takes as it stands: no separator, no double quote,
    no line feed. *)
Definition plain_field (sep : ascii) (s : string) : bool :=
  all_chars (fun x => negb ((x =? sep) || (x =? dquote) || (x =? "010"))%char) s.

(** The values of the enabled fields of the exported entries, row by row. *)
Definition exported_cells (comments : list CommentEntry) (selectedRows : list Z)
    (columnVisibility : visibility) : list (list string) :=
  map (fun c => map (field_string c) (selectedFields columnVisibility))
      (selectedComments comments selectedRows).

(** The entries whose index is not in [ids], in the order of the entries;
    [i] is the index of the head of [cs]. *)
Fixpoint entries_except (i : Z) (cs : list CommentEntry) (ids : list Z)
  : list CommentEntry :=
  match cs with
  | [] => []
  | c :: r =>
      if existsb (Z.eqb i) ids then entries_except (i + 1) r ids
      else c :: entries_except (i + 1) r ids
  end.

(** An entry moved [n] pages further. *)
Definition shift_page (n : Z) (c : CommentEntry) : CommentEntry :=
  {| Page := Page c + n; Author := Author c; Comment := Comment c;
     Modified := Modified c |}.

(** The number of annotations of a document that pass the subtype filter. *)
Definition text_annotations (pdf : pdf_document) : nat :=
  List.length
    (filter (fun a => strict_eq_string (extract_subtype a) "Text")
            (List.concat pdf)).

(** The characters of [v] pushed, first to last, on the first field. *)
Fixpoint push_string (v : string) (t : option (list (list string)))
  : option (list (list string)) :=
  match v with
  | "" => t
  | String c r => push_char c (push_string r t)
  end.

(** Where a field ends: at the end of the text, at a separator or at a
    line feed. *)
Definition at_boundary (sep : ascii) (rest : string) : Prop :=
  match rest with
  | "" => True
  | String c _ => c = sep \/ c = "010"%char
  end.

(** Where a record ends: at the end of the text or at a line feed. *)
Definition record_end (rest : string) : Prop :=
  match rest with
  | "" => True
  | String c _ => c = "010"%char
  end.

(** The records that follow a record: none at the end of the text, those
    of the text after the line feed otherwise. *)
Definition rows_after (sep : ascii) (rest : string)
  : option (list (list string)) :=
  match rest with
  | "" => Some []
  | String _ more => read_table sep AtStart more
  end.

(** [e] is a way to write the value [v]: the value itself when the reader
    takes it as it stands, or the value between double quotes with its
    double quotes doubled. *)
Definition writes (sep : ascii) (e v : string) : Prop :=
  (e = v /\ plain_field sep v = true) \/ e = DQ ++ doubled_quotes v ++ DQ.

(** An entry whose comment holds a comma, double quotes and a line feed,
    by an author with a comma. *)
Definition quoting_entry : CommentEntry :=
  entry 3 "Bob, jr"
    ("He said " ++ DQ ++ "no" ++ DQ ++ ", twice" ++ LF ++ "then left") "".

(** The numbers read from the six groups of a match. *)
Definition group_bounds (m : date_groups) : Prop :=
  0 <= to_number (g_y m) <= 9999 /\ 0 <= to_number (g_mo m) <= 99
  /\ 0 <= to_number (g_d m) <= 99 /\ 0 <= to_number (g_h m) <= 99
  /\ 0 <= to_number (g_mi m) <= 99 /\ 0 <= to_number (g_s m) <= 99.

(** ** The component state and its handlers *)

Module App.

(** Why a load failed: the parser refused the file, or the extraction
    loop threw.  Either way [err.message || ...] is a non-empty text. *)
Inductive failure : Type :=
| ParserFailed
| Thrown (e : exn).

(** The [useState] cells that the handlers of [App] write.  [file] holds
    the name of the [File]; [error] is [None] for the empty message. *)
Record state : Type := {
  file : option string;
  fileName : string;
  comments : list CommentEntry;
  loading : bool;
  error : option failure;
  selectedRows : list Z;
  noCommentsWarning : bool
}.

Definition initial : state :=
  {| file := None; fileName := ""; comments := []; loading := false;
     error := None; selectedRows := []; noCommentsWarning := false |}.

Definition unloadFile (st : state) : state :=
  {| file := None; fileName := ""; comments := []; loading := false;
     error := None; selectedRows := [];
     noCommentsWarning := noCommentsWarning st |}.

(** [handleFileSelect] up to its first [await]. *)
Definition handleFileSelect_start (f : option string) (st : state) : state :=
  match f with
  | None => st
  | Some name =>
      {| file := Some name; fileName := name; comments := []; loading := true;
         error := None; selectedRows := selectedRows st;
         noCommentsWarning := noCommentsWarning st |}
  end.

Section Handlers.

Variable Date_parse : string -> option Z.

(** The rest of [handleFileSelect], once the file is read: [doc] is the
    parsed document, [None] when [getDocument] rejects. *)
Definition handleFileSelect_end (doc : option pdf_document) (st : state)
  : state :=
  match doc with
  | Some pdf =>
      match extract Date_parse pdf with
      | Normal found =>
          {| file := file st; fileName := fileName st; comments := found;
             loading := false; error := error st;
             selectedRows := selectedRows st;
             noCommentsWarning :=
               if (List.length found =? 0)%nat then true
               else noCommentsWarning st |}
      | Throw e =>
          {| file := file st; fileName := fileName st;
             comments := comments st; loading := false;
             error := Some (Thrown e); selectedRows := selectedRows st;
             noCommentsWarning := noCommentsWarning st |}
      end
  | None =>
      {| file := file st; fileName := fileName st; comments := comments st;
         loading := false; error := Some ParserFailed;
         selectedRows := selectedRows st;
         noCommentsWarning := noCommentsWarning st |}
  end.

(** [onSelectionChange={handleSelectionChange}]. *)
Definition onSelectionChange (selectionModel : GridRowSelectionModel)
    (st : state) : state :=
  {| file := file st; fileName := fileName st; comments := comments st;
     loading := loading st; error := error st;
     selectedRows :=
       handleSelectionChange (List.length (comments st)) selectionModel;
     noCommentsWarning := noCommentsWarning st |}.

(** [onClose={() => setNoCommentsWarning(false)}]. *)
Definition closeWarning (st : state) : state :=
  {| file := file st; fileName := fileName st; comments := comments st;
     loading := loading st; error := error st;
     selectedRows := selectedRows st; noCommentsWarning := false |}.

(** What can happen to the component: a file is handed to
    [handleFileSelect], a pending load resumes with its document, the
    clear button, the grid, the snackbar. *)
Inductive event : Type :=
| Started (f : option string)
| Finished (doc : option pdf_document)
| Unloaded
| SelectionChanged (selectionModel : GridRowSelectionModel)
| WarningClosed.

Definition step (st : state) (e : event) : state :=
  match e with
  | Started f => handleFileSelect_start f st
  | Finished doc => handleFileSelect_end doc st
  | Unloaded => unloadFile st
  | SelectionChanged m => onSelectionChange m st
  | WarningClosed => closeWarning st
  end.

Definition run (events : list event) (st : state) : state :=
  fold_left step events st.

(** What the user does, when each load is over before the next thing
    happens. *)
Inductive action : Type :=
| Load (name : string) (doc : option pdf_document)
| Unload
| Select (selectionModel : GridRowSelectionModel)
| CloseWarning.

Definition events_of (a : action) : list event :=
  match a with
  | Load name doc => [Started (Some name); Finished doc]
  | Unload => [Unloaded]
  | Select m => [SelectionChanged m]
  | CloseWarning => [WarningClosed]
  end.

(** [!file && comments.length === 0]: the upload box is shown instead of
    the results. *)
Definition upload_screen (st : state) : bool :=
  match file st with
  | None => (List.length (comments st) =? 0)%nat
  | Some _ => false
  end.

End Handlers.

End App.

(** * Properties *)

(** ** Strings *)

Lemma string_eqb_false_iff (s t : string) : (s =? t)%string = false <-> s <> t.
Proof.
  destruct (String.eqb_spec s t) as [E | N]; split; intro H;
    congruence || reflexivity.
Qed.

Lemma trimEnd_idem (s : string) : trimEnd (trimEnd s) = trimEnd s.
Proof.
  induction s as [| c r IH]; [reflexivity |].
  simpl. destruct (trimEnd r) as [| a r'] eqn:E.
  - destruct (is_space c) eqn:Hc; simpl; [reflexivity | now rewrite Hc].
  - change (trimEnd (String c (String a r'))) with
      (match trimEnd (String a r') with
       | "" => if is_space c then "" else String c ""
       | String x y => String c (String x y)
       end).
    now rewrite IH.
Qed.

Lemma trimEnd_keeps_head (c : ascii) (r : string) :
  is_space c = false -> exists r', trimEnd (String c r) = String c r'.
Proof.
  intro Hc. simpl. destruct (trimEnd r) as [| a r'].
  - rewrite Hc. now exists "".
  - now exists (String a r').
Qed.

Lemma trimStart_head (s : string) :
  trimStart s = "" \/
  exists c r, trimStart s = String c r /\ is_space c = false.
Proof.
  induction s as [| c r IH]; [now left |].
  simpl. destruct (is_space c) eqn:Hc; [exact IH |].
  right. now exists c, r.
Qed.

Lemma trimStart_trim (s : string) : trimStart (trim s) = trim s.
Proof.
  unfold trim. destruct (trimStart_head s) as [E | (c & r & E & Hc)].
  - now rewrite E.
  - rewrite E. destruct (trimEnd_keeps_head c r Hc) as [r' E'].
    rewrite E'. simpl. now rewrite Hc.
Qed.

Lemma trim_idem (s : string) : trim (trim s) = trim s.
Proof.
  unfold trim at 1. rewrite trimStart_trim. unfold trim. apply trimEnd_idem.
Qed.

(** ** The loops of the Extractor *)

Section ExtractorFacts.

Variable Date_parse : string -> option Z.

Lemma strict_eq_string_true (v : value) (s : string) :
  strict_eq_string v s = true <-> v = VStr s.
Proof.
  destruct v; simpl; try (split; [discriminate | intro H; discriminate H]).
  rewrite String.eqb_eq. split; [now intros -> | congruence].
Qed.

(** What an entry owes to the annotation it comes from. *)
Lemma process_annotation_entry (pageNum : Z) (a : annotation) (c : CommentEntry) :
  process_annotation Date_parse pageNum a = Normal (Some c) ->
  extract_subtype a = VStr "Text" /\
  Page c = pageNum /\
  Author c = extract_author a /\
  exists s, extract_contents a = VStr s /\ trim s <> "" /\ Comment c = trim s.
Proof.
  unfold process_annotation.
  destruct (strict_eq_string (extract_subtype a) "Text") eqn:Hsub; simpl;
    [| discriminate].
  apply strict_eq_string_true in Hsub.
  destruct (truthy (extract_contents a)); [| discriminate].
  destruct (extract_contents a) as [| | | | s | |]; try discriminate.
  destruct (trim s =? "")%string eqn:Ht; simpl; [discriminate |].
  apply string_eqb_false_iff in Ht.
  destruct (formatDate Date_parse (extract_mod a)) as [m | e]; simpl;
    [| discriminate].
  intros [= <-]. simpl. repeat split; trivial. now exists s.
Qed.

Lemma process_annots_app (pageNum : Z) (l1 l2 : list annotation)
    (found : list CommentEntry) :
  process_annots Date_parse pageNum (l1 ++ l2) found =
  bind (process_annots Date_parse pageNum l1 found)
       (process_annots Date_parse pageNum l2).
Proof.
  revert found. induction l1 as [| a l1 IH]; intro found; [reflexivity |].
  simpl. destruct (process_annotation Date_parse pageNum a) as [o | e]; simpl;
    [apply IH | reflexivity].
Qed.

Lemma process_pages_app (pageNum : Z) (l1 l2 : list (list annotation))
    (found : list CommentEntry) :
  process_pages Date_parse pageNum (l1 ++ l2) found =
  bind (process_pages Date_parse pageNum l1 found)
       (process_pages Date_parse (pageNum + Z.of_nat (List.length l1)) l2).
Proof.
  revert pageNum found.
  induction l1 as [| annots l1 IH]; intros pageNum found.
  - simpl. now rewrite Z.add_0_r.
  - cbn [process_pages app List.length].
    destruct (process_annots Date_parse pageNum annots found) as [f | e];
      simpl; [| reflexivity].
    rewrite IH. do 2 f_equal. lia.
Qed.

(** A normal run of the inner loop appends the entries of the page. *)
Lemma process_annots_normal (pageNum : Z) (annots : list annotation)
    (found f : list CommentEntry) :
  process_annots Date_parse pageNum annots found = Normal f ->
  f = (found ++ page_entries Date_parse pageNum annots)%list.
Proof.
  revert found. induction annots as [| a rest IH]; intros found; simpl.
  - intros [= <-]. now rewrite app_nil_r.
  - destruct (process_annotation Date_parse pageNum a) as [[c |] | e]; simpl.
    + intro H. apply IH in H. now rewrite <- app_assoc in H.
    + apply IH.
    + discriminate.
Qed.

Lemma process_pages_normal (pageNum : Z) (pages : list (list annotation))
    (found f : list CommentEntry) :
  process_pages Date_parse pageNum pages found = Normal f ->
  f = (found ++ document_entries Date_parse pageNum pages)%list.
Proof.
  revert pageNum found. induction pages as [| annots rest IH];
    intros pageNum found; simpl.
  - intros [= <-]. now rewrite app_nil_r.
  - destruct (process_annots Date_parse pageNum annots found) as [f1 | e] eqn:E;
      simpl; [| discriminate].
    intro H. apply IH in H. apply process_annots_normal in E.
    subst. now rewrite <- app_assoc.
Qed.

Lemma extract_normal (pdf : pdf_document) (found : list CommentEntry) :
  extract Date_parse pdf = Normal found ->
  found = document_entries Date_parse 1 pdf.
Proof. intro H. now apply process_pages_normal in H. Qed.

(** The state after a load holds the extracted entries, or nothing. *)
Lemma handleFileSelect_comments (pdf : pdf_document) :
  comments (handleFileSelect Date_parse pdf) = document_entries Date_parse 1 pdf
  \/ comments (handleFileSelect Date_parse pdf) = [].
Proof.
  unfold handleFileSelect.
  destruct (extract Date_parse pdf) as [found | e] eqn:E; simpl.
  - left. now apply extract_normal.
  - now right.
Qed.

Lemma handleFileSelect_no_error (pdf : pdf_document) :
  error (handleFileSelect Date_parse pdf) = None ->
  comments (handleFileSelect Date_parse pdf) = document_entries Date_parse 1 pdf.
Proof.
  unfold handleFileSelect.
  destruct (extract Date_parse pdf) as [found | e] eqn:E; simpl.
  - intros _. now apply extract_normal.
  - discriminate.
Qed.

Lemma page_entries_In (pageNum : Z) (annots : list annotation) (c : CommentEntry) :
  In c (page_entries Date_parse pageNum annots) ->
  exists a, In a annots /\ process_annotation Date_parse pageNum a = Normal (Some c).
Proof.
  unfold page_entries. rewrite in_flat_map. intros (a & Ha & Hc).
  exists a. split; [exact Ha |].
  destruct (process_annotation Date_parse pageNum a) as [[c' |] | e];
    simpl in Hc; try contradiction.
  destruct Hc as [-> | []]. reflexivity.
Qed.

Lemma page_entries_Page (pageNum : Z) (annots : list annotation) :
  Forall (fun c => Page c = pageNum) (page_entries Date_parse pageNum annots).
Proof.
  apply Forall_forall. intros c Hc.
  apply page_entries_In in Hc as (a & _ & Ha).
  now apply process_annotation_entry in Ha.
Qed.

Lemma document_entries_In (pageNum : Z) (pages : list (list annotation))
    (c : CommentEntry) :
  In c (document_entries Date_parse pageNum pages) ->
  exists k annots a,
    nth_error pages k = Some annots /\ In a annots /\
    process_annotation Date_parse (pageNum + Z.of_nat k) a = Normal (Some c).
Proof.
  revert pageNum. induction pages as [| annots rest IH]; intros pageNum; simpl;
    [contradiction |].
  rewrite in_app_iff. intros [H | H].
  - apply page_entries_In in H as (a & Ha & Hp).
    exists O, annots, a. simpl. now rewrite Z.add_0_r.
  - apply IH in H as (k & annots' & a & Hk & Ha & Hp).
    exists (S k), annots', a. simpl. repeat split; trivial.
    now replace (pageNum + Z.pos (Pos.of_succ_nat k))
      with (pageNum + 1 + Z.of_nat k) by lia.
Qed.

Lemma document_entries_Page_ge (pageNum : Z) (pages : list (list annotation)) :
  Forall (fun c => pageNum <= Page c) (document_entries Date_parse pageNum pages).
Proof.
  apply Forall_forall. intros c Hc.
  apply document_entries_In in Hc as (k & annots & a & _ & _ & Hp).
  apply process_annotation_entry in Hp as (_ & -> & _). lia.
Qed.

End ExtractorFacts.

(** ** Order and shape of the extracted entries *)

Section ExtractedEntries.

Variable Date_parse : string -> option Z.

Lemma StronglySorted_app (A : Type) (R : A -> A -> Prop) (l1 l2 : list A) :
  StronglySorted R l1 -> StronglySorted R l2 ->
  (forall x y, In x l1 -> In y l2 -> R x y) ->
  StronglySorted R (l1 ++ l2).
Proof.
  intros H1 H2 H12. induction H1 as [| x l1 Hs IH Hx]; simpl; [exact H2 |].
  constructor.
  - apply IH. intros u v Hu Hv. apply H12; [now right | exact Hv].
  - apply Forall_app. split; [exact Hx |].
    apply Forall_forall. intros y Hy. apply H12; [now left | exact Hy].
Qed.

Lemma same_page_sorted (p : Z) (l : list CommentEntry) :
  Forall (fun c => Page c = p) l -> StronglySorted page_le l.
Proof.
  induction 1 as [| c l Hc Hl IH]; constructor; [exact IH |].
  apply Forall_forall. intros c' Hc'.
  rewrite Forall_forall in Hl. unfold page_le. rewrite Hc, (Hl c' Hc'). lia.
Qed.

Lemma document_entries_sorted (pageNum : Z) (pages : list (list annotation)) :
  StronglySorted page_le (document_entries Date_parse pageNum pages).
Proof.
  revert pageNum. induction pages as [| annots rest IH]; intro pageNum; simpl;
    [constructor |].
  apply StronglySorted_app.
  - apply same_page_sorted with (p := pageNum), page_entries_Page.
  - apply IH.
  - intros x y Hx Hy.
    pose proof (page_entries_Page Date_parse pageNum annots) as H1.
    pose proof (document_entries_Page_ge Date_parse (pageNum + 1) rest) as H2.
    rewrite Forall_forall in H1, H2. unfold page_le.
    rewrite (H1 x Hx). specialize (H2 y Hy). lia.
Qed.

Lemma filter_keeps_all (A : Type) (f : A -> bool) (l : list A) :
  Forall (fun x => f x = true) l -> filter f l = l.
Proof.
  induction 1 as [| x l Hx _ IH]; simpl; [reflexivity |].
  now rewrite Hx, IH.
Qed.

Lemma filter_keeps_none (A : Type) (f : A -> bool) (l : list A) :
  Forall (fun x => f x = false) l -> filter f l = [].
Proof.
  induction 1 as [| x l Hx _ IH]; simpl; [reflexivity |].
  now rewrite Hx.
Qed.

(** The entries of one page number are those of that page, in the order of
    its annotations. *)
Lemma document_entries_of_page (pageNum : Z) (pages : list (list annotation))
    (k : nat) (annots : list annotation) :
  nth_error pages k = Some annots ->
  filter (fun c => Page c =? pageNum + Z.of_nat k)
         (document_entries Date_parse pageNum pages)
  = page_entries Date_parse (pageNum + Z.of_nat k) annots.
Proof.
  revert pageNum k. induction pages as [| annots0 rest IH]; intros pageNum k.
  - destruct k; discriminate.
  - destruct k as [| k]; simpl nth_error; intro Hk.
    + injection Hk as ->. simpl. rewrite Z.add_0_r, filter_app.
      rewrite filter_keeps_all, filter_keeps_none; [apply app_nil_r | |].
      * eapply Forall_impl; [| apply document_entries_Page_ge].
        simpl. intros c Hc. apply Z.eqb_neq. lia.
      * eapply Forall_impl; [| apply page_entries_Page].
        simpl. intros c Hc. apply Z.eqb_eq. exact Hc.
    + cbn [document_entries]. rewrite filter_app.
      rewrite filter_keeps_none.
      * replace (pageNum + Z.of_nat (S k)) with (pageNum + 1 + Z.of_nat k) by lia.
        now apply IH.
      * eapply Forall_impl; [| apply page_entries_Page].
        simpl. intros c Hc. apply Z.eqb_neq. lia.
Qed.

Lemma document_entries_comment (pageNum : Z) (pages : list (list annotation)) :
  Forall (fun c => Comment c <> "" /\ trim (Comment c) = Comment c)
         (document_entries Date_parse pageNum pages).
Proof.
  apply Forall_forall. intros c Hc.
  apply document_entries_In in Hc as (k & annots & a & _ & _ & Hp).
  apply process_annotation_entry in Hp as (_ & _ & _ & s & _ & Hs & ->).
  split; [exact Hs | apply trim_idem].
Qed.

(** The comment of every entry a load leaves in the state is non-empty. *)
Lemma loaded_comment_nonempty (pdf : pdf_document) (c : CommentEntry) :
  In c (comments (handleFileSelect Date_parse pdf)) -> Comment c <> "".
Proof.
  destruct (handleFileSelect_comments Date_parse pdf) as [-> | ->];
    [| contradiction].
  intro Hc.
  pose proof (document_entries_comment 1 pdf) as H.
  rewrite Forall_forall in H. now apply H.
Qed.

(** C4. Every entry left by a load has a comment that is non-empty and is
    its own trimmed form, and a page number of at least 1; the entries come
    by ascending page number; and, when the load raised no error, the
    entries of one page are those of its annotations in the order the
    parser returned them. *)
Theorem extracted_entries_invariants (pdf : pdf_document) :
  let found := comments (handleFileSelect Date_parse pdf) in
  Forall (fun c => Comment c <> "" /\ trim (Comment c) = Comment c
                   /\ 1 <= Page c) found
  /\ StronglySorted page_le found
  /\ (error (handleFileSelect Date_parse pdf) = None ->
      forall (k : nat) (annots : list annotation),
        nth_error pdf k = Some annots ->
        filter (fun c => Page c =? 1 + Z.of_nat k) found
        = page_entries Date_parse (1 + Z.of_nat k) annots).
Proof.
  cbv zeta. split; [| split].
  - destruct (handleFileSelect_comments Date_parse pdf) as [-> | ->];
      [| constructor].
    pose proof (document_entries_comment 1 pdf) as H1.
    pose proof (document_entries_Page_ge Date_parse 1 pdf) as H2.
    rewrite Forall_forall in *. intros c Hc.
    destruct (H1 c Hc). specialize (H2 c Hc). auto.
  - destruct (handleFileSelect_comments Date_parse pdf) as [-> | ->];
      [apply document_entries_sorted | constructor].
  - intros Herr k annots Hk.
    rewrite (handleFileSelect_no_error _ _ Herr).
    now apply document_entries_of_page.
Qed.

End ExtractedEntries.

Lemma extracted_entries_invariants_witness :
  let found := comments (handleFileSelect iso_Date_parse two_pages) in
  found = two_entries
  /\ Forall (fun c => Comment c <> "" /\ trim (Comment c) = Comment c
                      /\ 1 <= Page c) found
  /\ StronglySorted page_le found
  /\ filter (fun c => Page c =? 1 + Z.of_nat 1) found
     = page_entries iso_Date_parse (1 + Z.of_nat 1) [fix_note].
Proof.
  pose proof (extracted_entries_invariants iso_Date_parse two_pages) as H.
  cbv zeta in *. destruct H as (H1 & H2 & H3).
  split; [reflexivity |]. split; [exact H1 |]. split; [exact H2 |].
  apply H3; reflexivity.
Defined.

(** ** Annotations that are skipped, annotations that throw *)

(** The subtype the filter looks at: [subtype] when it holds a truthy
    value, else [annotationType] when that does, else the empty string. *)
Lemma extract_subtype_first_present (a : annotation) :
  (truthy (prop a "subtype") = true ->
   extract_subtype a = prop a "subtype")
  /\ (truthy (prop a "subtype") = false ->
      truthy (prop a "annotationType") = true ->
      extract_subtype a = prop a "annotationType")
  /\ (truthy (prop a "subtype") = false ->
      truthy (prop a "annotationType") = false ->
      extract_subtype a = VStr "").
Proof.
  unfold extract_subtype, or_else. repeat split.
  - intro H. rewrite H. cbv iota. now rewrite H.
  - intros H1 H2. rewrite H1. cbv iota. now rewrite H2.
  - intros H1 H2. rewrite H1. cbv iota. now rewrite H2.
Qed.

(** A type code alone, as the parser gives it, never makes a text comment. *)
Lemma numeric_annotationType_skipped (Date_parse : string -> option Z)
    (a : annotation) (n pageNum : Z) :
  truthy (prop a "subtype") = false ->
  prop a "annotationType" = VNum n ->
  process_annotation Date_parse pageNum a = Normal None.
Proof.
  intros H1 H2. unfold process_annotation, extract_subtype, or_else.
  rewrite H1. cbv iota. rewrite H2. simpl.
  destruct (negb (n =? 0)); reflexivity.
Qed.

Section SkipAndThrow.

Variable Date_parse : string -> option Z.

Lemma extract_at (before after : list (list annotation))
    (annots1 annots2 : list annotation) (a : annotation) :
  extract Date_parse (before ++ (annots1 ++ a :: annots2) :: after)%list =
  bind (process_pages Date_parse 1 before [])
    (fun f0 =>
       bind (process_annots Date_parse (1 + Z.of_nat (List.length before))
                            annots1 f0)
         (fun f1 =>
            bind (process_annotation Date_parse
                    (1 + Z.of_nat (List.length before)) a)
              (fun o =>
                 bind (process_annots Date_parse
                         (1 + Z.of_nat (List.length before)) annots2
                         match o with
                         | Some c => (f1 ++ [c])%list
                         | None => f1
                         end)
                   (process_pages Date_parse
                      (1 + Z.of_nat (List.length before) + 1) after)))).
Proof.
  unfold extract. rewrite process_pages_app.
  destruct (process_pages Date_parse 1 before []) as [f0 | e]; simpl;
    [| reflexivity].
  rewrite process_annots_app.
  destruct (process_annots Date_parse _ annots1 f0) as [f1 | e]; simpl;
    [| reflexivity].
  destruct (process_annotation Date_parse _ a) as [o | e]; reflexivity.
Qed.

(** C3. An annotation whose subtype, read from [subtype] or else from
    [annotationType] (a field counts when it holds a non-empty, truthy
    value), is not exactly [Text] produces no entry: its turn of the loop
    pushes nothing and raises nothing, and a load gives the same state with
    the annotation as without it. *)
Theorem other_subtypes_yield_no_entry (a : annotation) :
  extract_subtype a <> VStr "Text" ->
  (forall pageNum, process_annotation Date_parse pageNum a = Normal None)
  /\ (forall before annots1 annots2 after,
        handleFileSelect Date_parse (before ++ (annots1 ++ a :: annots2) :: after)%list
        = handleFileSelect Date_parse (before ++ (annots1 ++ annots2) :: after)%list).
Proof.
  intro Hsub.
  assert (Hskip : forall pageNum,
             process_annotation Date_parse pageNum a = Normal None).
  { intro pageNum. unfold process_annotation.
    destruct (strict_eq_string (extract_subtype a) "Text") eqn:E;
      [| reflexivity].
    apply strict_eq_string_true in E. contradiction. }
  split; [exact Hskip |].
  intros before annots1 annots2 after. unfold handleFileSelect.
  rewrite extract_at, Hskip. unfold extract.
  rewrite process_pages_app.
  destruct (process_pages Date_parse 1 before []) as [f0 | e]; simpl;
    [| reflexivity].
  rewrite process_annots_app.
  destruct (process_annots Date_parse _ annots1 f0) as [f1 | e]; reflexivity.
Qed.

(** An exception in the turn of one annotation ends the run. *)
Lemma throwing_annotation_aborts (before after : list (list annotation))
    (annots1 annots2 : list annotation) (a : annotation) (e : exn) :
  process_annotation Date_parse (1 + Z.of_nat (List.length before)) a = Throw e ->
  exists e',
    handleFileSelect Date_parse (before ++ (annots1 ++ a :: annots2) :: after)%list
    = failed_load e'.
Proof.
  intro Ha. unfold handleFileSelect. rewrite extract_at, Ha.
  destruct (process_pages Date_parse 1 before []) as [f0 | e0]; simpl;
    [| now exists e0].
  destruct (process_annots Date_parse _ annots1 f0) as [f1 | e1]; simpl;
    [now exists e | now exists e1].
Qed.

(** C1 (the code departs from it). A non-empty timestamp that matches
    neither the PDF date pattern nor a date the engine can parse makes
    [formatDate] throw a RangeError; when it sits on a text comment with a
    non-blank text the exception leaves the loops, and the load ends with an
    error and no entry at all, whatever the other annotations hold. *)
Theorem unparseable_timestamp_aborts_run (a : annotation) (s ts : string) :
  extract_subtype a = VStr "Text" ->
  extract_contents a = VStr s -> trim s <> "" ->
  extract_mod a = VStr ts -> ts <> "" ->
  date_regex_exec ts = None -> Date_parse ts = None ->
  formatDate Date_parse (VStr ts) = Throw RangeError
  /\ (forall pageNum, process_annotation Date_parse pageNum a = Throw RangeError)
  /\ (forall before annots1 annots2 after,
        exists e,
          handleFileSelect Date_parse
            (before ++ (annots1 ++ a :: annots2) :: after)%list = failed_load e).
Proof.
  intros Hsub Hc Hs Hm Hts Hre Hparse.
  assert (Hf : formatDate Date_parse (VStr ts) = Throw RangeError).
  { unfold formatDate. simpl truthy.
    apply string_eqb_false_iff in Hts. rewrite Hts. simpl.
    now rewrite Hre, Hparse. }
  assert (Hp : forall pageNum,
             process_annotation Date_parse pageNum a = Throw RangeError).
  { intro pageNum. unfold process_annotation. rewrite Hsub, Hc, Hm.
    simpl strict_eq_string. simpl negb. cbv iota.
    assert (Hne : s <> "") by (intros ->; now apply Hs).
    simpl truthy. apply string_eqb_false_iff in Hne. rewrite Hne. simpl negb.
    cbv iota. apply string_eqb_false_iff in Hs. rewrite Hs. simpl negb.
    cbv iota. now rewrite Hf. }
  split; [exact Hf |]. split; [exact Hp |].
  intros before annots1 annots2 after.
  now apply throwing_annotation_aborts with (e := RangeError).
Qed.

(** A truthy text that is not a string has no [trim] to call: the turn of
    the annotation throws a TypeError, which ends the run the same way. *)
Lemma non_string_text_throws (a : annotation) (pageNum : Z) :
  extract_subtype a = VStr "Text" ->
  truthy (extract_contents a) = true ->
  as_string (extract_contents a) = None ->
  process_annotation Date_parse pageNum a = Throw TypeError.
Proof.
  intros Hsub Ht Hs. unfold process_annotation. rewrite Hsub, Ht.
  simpl strict_eq_string. simpl negb. cbv iota.
  destruct (extract_contents a); try reflexivity; discriminate.
Qed.

End SkipAndThrow.

Example numeric_text_aborts_run :
  handleFileSelect iso_Date_parse
    [[alice_note;
      [("subtype", VStr "Text"); ("contents", VObj [("str", VNum 5)])]]]
  = failed_load TypeError.
Proof. reflexivity. Qed.

Lemma other_subtypes_yield_no_entry_witness :
  process_annotation iso_Date_parse 1 highlight = Normal None
  /\ handleFileSelect iso_Date_parse ([] ++ ([alice_note] ++ highlight :: []) :: [[fix_note]])%list
     = handleFileSelect iso_Date_parse ([] ++ ([alice_note] ++ []) :: [[fix_note]])%list.
Proof.
  assert (H : extract_subtype highlight <> VStr "Text") by (vm_compute; discriminate).
  destruct (other_subtypes_yield_no_entry iso_Date_parse highlight H) as [H1 H2].
  split; [apply H1 | apply H2].
Defined.

Lemma unparseable_timestamp_aborts_run_witness :
  formatDate iso_Date_parse (VStr "unknown") = Throw RangeError
  /\ handleFileSelect iso_Date_parse [[alice_note]; [fix_note]]
     = {| comments := two_entries; error := None; noCommentsWarning := false |}
  /\ handleFileSelect iso_Date_parse [[alice_note]; [fix_note; undated_note]]
     = failed_load RangeError
  /\ exists e,
       handleFileSelect iso_Date_parse
         ([[alice_note]] ++ ([fix_note] ++ undated_note :: []) :: [])%list
       = failed_load e.
Proof.
  assert (H1 : extract_subtype undated_note = VStr "Text") by reflexivity.
  assert (H2 : extract_contents undated_note = VStr "Second thought")
    by reflexivity.
  assert (H3 : trim "Second thought" <> "") by (vm_compute; discriminate).
  assert (H4 : extract_mod undated_note = VStr "unknown") by reflexivity.
  assert (H5 : "unknown" <> "") by discriminate.
  assert (H6 : date_regex_exec "unknown" = None) by reflexivity.
  assert (H7 : iso_Date_parse "unknown" = None) by reflexivity.
  destruct (unparseable_timestamp_aborts_run iso_Date_parse undated_note
              "Second thought" "unknown" H1 H2 H3 H4 H5 H6 H7) as (Hf & _ & Hrun).
  split; [exact Hf |]. split; [reflexivity |]. split; [reflexivity |].
  apply Hrun.
Defined.

(** ** The selection of rows *)

Lemma filter_Boolean_app (l1 l2 : list (option CommentEntry)) :
  filter_Boolean (l1 ++ l2) = (filter_Boolean l1 ++ filter_Boolean l2)%list.
Proof.
  induction l1 as [| [c |] l1 IH]; simpl; [reflexivity | now rewrite IH | exact IH].
Qed.

Lemma filter_Boolean_cons (o : option CommentEntry)
    (l : list (option CommentEntry)) :
  filter_Boolean (o :: l) = (opt_list o ++ filter_Boolean l)%list.
Proof. destruct o; reflexivity. Qed.

Lemma at_index_nil (i : Z) : at_index [] i = None.
Proof.
  unfold at_index. destruct (i <? 0); [reflexivity |].
  now destruct (Z.to_nat i).
Qed.

Lemma at_index_cons (c : CommentEntry) (r : list CommentEntry) (i : Z) :
  at_index (c :: r) i =
  if i <? 0 then None else if i =? 0 then Some c else at_index r (i - 1).
Proof.
  unfold at_index. destruct (Z.ltb_spec i 0) as [Hlt | Hge]; [reflexivity |].
  destruct (Z.eqb_spec i 0) as [-> | Hne]; [reflexivity |].
  destruct (Z.ltb_spec (i - 1) 0) as [Hlt' | _]; [lia |].
  replace (Z.to_nat i) with (S (Z.to_nat (i - 1))) by lia. reflexivity.
Qed.

Lemma at_index_negative (cs : list CommentEntry) (i : Z) :
  i < 0 -> at_index cs i = None.
Proof. intro H. unfold at_index. now apply Z.ltb_lt in H as ->. Qed.

Lemma at_index_beyond (cs : list CommentEntry) (i : Z) :
  Z.of_nat (List.length cs) <= i -> at_index cs i = None.
Proof.
  intro H. unfold at_index. destruct (i <? 0); [reflexivity |].
  apply nth_error_None. lia.
Qed.

Lemma at_index_In (cs : list CommentEntry) (i : Z) (c : CommentEntry) :
  at_index cs i = Some c -> In c cs.
Proof.
  unfold at_index. destruct (i <? 0); [discriminate |]. apply nth_error_In.
Qed.

Lemma filter_Boolean_In (l : list (option CommentEntry)) (c : CommentEntry) :
  In c (filter_Boolean l) <-> In (Some c) l.
Proof.
  induction l as [| [c' |] l IH]; simpl.
  - tauto.
  - rewrite IH. split; (intros [H | H]; [left; congruence | now right]).
  - rewrite IH. split; [now right | intros [H | H]; [discriminate | exact H]].
Qed.

Lemma selectedComments_nil (cs : list CommentEntry) : selectedComments cs [] = cs.
Proof. reflexivity. Qed.

Lemma selectedComments_nonempty (cs : list CommentEntry) (sel : list Z) :
  sel <> [] ->
  selectedComments cs sel = filter_Boolean (map (at_index cs) sel).
Proof. destruct sel; [congruence | reflexivity]. Qed.

Lemma selectedComments_In (cs : list CommentEntry) (sel : list Z)
    (c : CommentEntry) :
  In c (selectedComments cs sel) -> In c cs.
Proof.
  destruct sel as [| i sel]; [trivial |].
  rewrite selectedComments_nonempty by discriminate.
  rewrite filter_Boolean_In, in_map_iff. intros (j & Hj & _).
  now apply at_index_In in Hj.
Qed.

(** C10. An index at or beyond the number of entries is dropped from the
    selection: the entries exported are those of the other selected
    indices, each of them an entry of the state, and the three renderers
    give the text they give for exactly these entries. *)
Theorem out_of_range_index_dropped (cs : list CommentEntry)
    (sel1 sel2 : list Z) (i : Z) (vis : visibility) :
  Z.of_nat (List.length cs) <= i ->
  let kept := filter_Boolean (map (at_index cs) (sel1 ++ sel2)) in
  selectedComments cs (sel1 ++ i :: sel2) = kept
  /\ Forall (fun c => In c cs) kept
  /\ saveCSV cs (sel1 ++ i :: sel2) vis = saveCSV kept [] vis
  /\ formatTextContent cs (sel1 ++ i :: sel2) vis = formatTextContent kept [] vis
  /\ copyCSVToClipboard cs (sel1 ++ i :: sel2) vis
     = copyCSVToClipboard kept [] vis.
Proof.
  intros Hi kept.
  assert (Hsel : selectedComments cs (sel1 ++ i :: sel2) = kept).
  { rewrite selectedComments_nonempty by (now destruct sel1).
    unfold kept. rewrite !map_app, !filter_Boolean_app. simpl.
    now rewrite (at_index_beyond cs i Hi). }
  split; [exact Hsel |]. split.
  - apply Forall_forall. intros c Hc. unfold kept in Hc.
    rewrite filter_Boolean_In, in_map_iff in Hc. destruct Hc as (j & Hj & _).
    now apply at_index_In in Hj.
  - unfold saveCSV, formatTextContent, copyCSVToClipboard.
    rewrite Hsel, selectedComments_nil. repeat split; reflexivity.
Qed.

Lemma out_of_range_index_dropped_witness :
  selectedComments five_entries ([0] ++ 7 :: [2])
  = [entry 1 "" "a" ""; entry 2 "" "c" ""]
  /\ formatTextContent five_entries ([0] ++ 7 :: [2]) DEFAULT_COLUMNS
     = formatTextContent [entry 1 "" "a" ""; entry 2 "" "c" ""] [] DEFAULT_COLUMNS.
Proof.
  assert (H : Z.of_nat (List.length five_entries) <= 7) by (vm_compute; discriminate).
  pose proof (out_of_range_index_dropped five_entries [0] [2] 7 DEFAULT_COLUMNS H)
    as (H1 & _ & _ & H2 & _).
  split; [exact H1 | exact H2].
Defined.

Lemma existsb_eqb_false (k : Z) (sel : list Z) :
  Forall (fun j => k <> j) sel -> existsb (Z.eqb k) sel = false.
Proof.
  induction 1 as [| j sel Hj _ IH]; simpl; [reflexivity |].
  rewrite IH. now apply Z.eqb_neq in Hj as ->.
Qed.

Lemma existsb_eqb_true (k : Z) (sel : list Z) :
  existsb (Z.eqb k) sel = true -> In k sel.
Proof.
  rewrite existsb_exists. intros (j & Hj & E). now apply Z.eqb_eq in E as ->.
Qed.

Lemma spec_subset_from_empty (k : Z) (cs : list CommentEntry) :
  spec_subset_from k cs [] = [].
Proof. revert k. induction cs as [| c r IH]; intro k; simpl; auto. Qed.

(** With the smallest selected index in front, the specified subset starts
    with the entry at that index. *)
Lemma spec_subset_from_least (k i : Z) (cs : list CommentEntry) (sel : list Z) :
  Forall (Z.lt i) sel ->
  spec_subset_from k cs (i :: sel)
  = (opt_list (at_index cs (i - k)) ++ spec_subset_from k cs sel)%list.
Proof.
  intro Hsel. revert k. induction cs as [| c r IH]; intro k.
  - now rewrite at_index_nil.
  - cbn [spec_subset_from existsb]. rewrite IH, at_index_cons.
    replace (i - (k + 1)) with (i - k - 1) by lia.
    destruct (Z.eqb_spec k i) as [-> | Hne]; simpl orb.
    + rewrite existsb_eqb_false.
      * replace (i - i) with 0 by lia. reflexivity.
      * eapply Forall_impl; [| exact Hsel]. simpl. lia.
    + destruct (existsb (Z.eqb k) sel) eqn:Hk.
      * apply existsb_eqb_true in Hk. rewrite Forall_forall in Hsel.
        specialize (Hsel k Hk).
        destruct (Z.ltb_spec (i - k) 0) as [_ | ?]; [| lia].
        now rewrite at_index_negative by lia.
      * destruct (Z.ltb_spec (i - k) 0) as [? | ?].
        -- now rewrite at_index_negative by lia.
        -- destruct (Z.eqb_spec (i - k) 0) as [? | _]; [lia | reflexivity].
Qed.

Lemma ascending_selection_from (k : Z) (cs : list CommentEntry) (sel : list Z) :
  StronglySorted Z.lt sel ->
  filter_Boolean (map (fun i => at_index cs (i - k)) sel)
  = spec_subset_from k cs sel.
Proof.
  induction 1 as [| i sel Hs IH Hi].
  - now rewrite spec_subset_from_empty.
  - rewrite spec_subset_from_least by exact Hi.
    cbn [map]. now rewrite filter_Boolean_cons, IH.
Qed.

(** The selection the grid reports by exclusion is ascending. *)
Lemma excluded_selection_ascending (n : nat) (ids : list Z) :
  StronglySorted Z.lt (handleSelectionChange n (SelExclude ids)).
Proof.
  simpl. generalize 0%nat as start.
  induction n as [| n IH]; intro start; simpl; [constructor |].
  assert (Hrest : Forall (Z.lt (Z.of_nat start))
                    (filter (fun i => negb (existsb (Z.eqb i) ids))
                            (map Z.of_nat (seq (S start) n)))).
  { apply Forall_forall. intros j Hj.
    apply filter_In in Hj as [Hj _]. apply in_map_iff in Hj as (m & <- & Hm).
    apply in_seq in Hm. lia. }
  destruct (negb (existsb (Z.eqb (Z.of_nat start)) ids)).
  - constructor; [apply IH | exact Hrest].
  - apply IH.
Qed.

(** C5 (the code departs from it). With nothing selected every entry is
    exported.  Otherwise the export holds the entries at the selected
    indices in the order of the selection; that is the order of the entries
    themselves only when the selection is ascending. *)
Theorem selection_keeps_selection_order (cs : list CommentEntry) (sel : list Z) :
  selectedComments cs [] = cs
  /\ (sel <> [] ->
      Forall (fun i => 0 <= i < Z.of_nat (List.length cs)) sel ->
      map Some (selectedComments cs sel) = map (at_index cs) sel)
  /\ (StronglySorted Z.lt sel -> selectedComments cs sel = spec_subset cs sel).
Proof.
  split; [reflexivity |]. split.
  - intros Hne Hrange. rewrite selectedComments_nonempty by exact Hne.
    clear Hne. induction Hrange as [| i sel Hi _ IH]; [reflexivity |].
    cbn [map]. destruct (at_index cs i) as [c |] eqn:E.
    + simpl. now rewrite IH.
    + unfold at_index in E. destruct (Z.ltb_spec i 0) as [? | _]; [lia |].
      apply nth_error_None in E. lia.
  - intro Hs. destruct sel as [| i sel]; [reflexivity |].
    rewrite selectedComments_nonempty by discriminate.
    unfold spec_subset. rewrite <- ascending_selection_from by exact Hs.
    f_equal. apply map_ext. intro j. now rewrite Z.sub_0_r.
Qed.

Lemma selection_keeps_selection_order_witness :
  map Some (selectedComments five_entries [2; 0])
  = map (at_index five_entries) [2; 0]
  /\ selectedComments five_entries [0; 2] = spec_subset five_entries [0; 2].
Proof.
  destruct (selection_keeps_selection_order five_entries [2; 0]) as (_ & H1 & _).
  destruct (selection_keeps_selection_order five_entries [0; 2]) as (_ & _ & H2).
  split.
  - apply H1; [discriminate |].
    repeat constructor; vm_compute; discriminate.
  - apply H2. repeat constructor.
Defined.

(** The same two rows selected two ways.  Clicked in the order 2, 0 they
    are exported in that order; left over when rows 1, 3 and 4 are unticked
    after a selection of all rows, they are exported in the order of the
    entries, which is the order specified. *)
Example rows_selected_two_ways :
  handleSelectionChange 5 (SelInclude [2; 0]) = [2; 0]
  /\ selectedComments five_entries [2; 0] = [entry 2 "" "c" ""; entry 1 "" "a" ""]
  /\ handleSelectionChange 5 (SelExclude [1; 3; 4]) = [0; 2]
  /\ selectedComments five_entries [0; 2] = [entry 1 "" "a" ""; entry 2 "" "c" ""]
  /\ spec_subset five_entries [2; 0] = [entry 1 "" "a" ""; entry 2 "" "c" ""]
  /\ formatTextContent five_entries [2; 0] DEFAULT_COLUMNS
     = "P2 - c" ++ LF ++ LF ++ "P1 - a"
  /\ saveCSV five_entries [2; 0] DEFAULT_COLUMNS
     = Some ("Page,Comment" ++ LF ++ "2," ++ DQ ++ "c" ++ DQ
               ++ LF ++ "1," ++ DQ ++ "a" ++ DQ).
Proof. repeat split. Qed.

(** ** The human-readable rendering *)

Lemma join_element_truthy (v : value) :
  truthy v = true ->
  match v with
  | VUndefined | VNull => ""
  | _ => to_string v
  end = to_string v.
Proof. destruct v; simpl; congruence. Qed.

(** The line the code builds for an entry is the line the specification
    words. *)
Lemma text_line_spec (fields : list string) (c : CommentEntry) :
  text_line fields c = spec_text_line fields c.
Proof.
  unfold text_line, spec_text_line, spec_prefix_parts, join.
  simpl truthy.
  destruct (existsb (String.eqb "Page") fields);
    destruct (existsb (String.eqb "Author") fields);
    destruct (truthy (Author c)) eqn:Ha;
    destruct (existsb (String.eqb "Modified") fields);
    destruct (Modified c =? "")%string eqn:Hm;
    cbn [andb negb app List.length Nat.ltb Nat.leb map String.concat];
    rewrite ?(join_element_truthy _ Ha); cbn [to_string];
    match goal with
    | |- context [if negb (?p =? "")%string then _ else _] =>
        destruct (p =? "")%string
    | _ => idtac
    end; reflexivity.
Qed.

(** C9.  With at least one field enabled, or with one entry at most to
    export, the text is made of one line per entry, joined by two
    newlines; the line is the prefix of the enabled fields among page (as P
    and the number), author and modified (each only if non-empty) joined by
    a comma and a space, followed by a dash and the comment when the prefix
    is not empty, the comment alone when it is, and the prefix alone when
    the comment is disabled.  With no field enabled the text is empty. *)
Theorem text_rendering (cs : list CommentEntry) (sel : list Z) (vis : visibility) :
  (selectedFields vis <> []
   \/ (List.length (selectedComments cs sel) <= 1)%nat ->
   formatTextContent cs sel vis
   = spec_text (selectedFields vis) (selectedComments cs sel))
  /\ (selectedFields vis = [] -> formatTextContent cs sel vis = "").
Proof.
  unfold formatTextContent, spec_text. split.
  - intro H. destruct (selectedFields vis) as [| f fs] eqn:E.
    + destruct H as [H | H]; [congruence |]. cbn.
      destruct (selectedComments cs sel) as [| c [| c' r]];
        [reflexivity | reflexivity | cbn in H; lia].
    + simpl. f_equal. apply map_ext. intro c. apply text_line_spec.
  - now intros ->.
Qed.

Lemma text_rendering_witness :
  formatTextContent two_entries [] page_author_comment
  = spec_text (selectedFields page_author_comment) (selectedComments two_entries [])
  /\ formatTextContent two_entries [] page_author_comment
     = "P1, Alice - Looks good" ++ LF ++ LF ++ "P2 - Fix this"
  /\ formatTextContent two_entries [1] no_columns
     = spec_text (selectedFields no_columns) (selectedComments two_entries [1])
  /\ formatTextContent two_entries [] no_columns = "".
Proof.
  destruct (text_rendering two_entries [] page_author_comment) as [H1 _].
  destruct (text_rendering two_entries [1] no_columns) as [H3 _].
  destruct (text_rendering two_entries [] no_columns) as [_ H2].
  split; [apply H1; left; discriminate |].
  split; [reflexivity |].
  split; [apply H3; right; vm_compute; lia | apply H2; reflexivity].
Defined.

(** ** The escaping of the CSV fields *)

Lemma prefix_empty (s : string) : String.prefix "" s = true.
Proof. destruct s; reflexivity. Qed.

Lemma includes_char (s : string) (ch : ascii) :
  includes s (String ch "") = true <-> occurs ch s.
Proof.
  induction s as [| x r IH]; simpl.
  - split; [discriminate | contradiction].
  - destruct (ascii_dec ch x) as [-> | Hne]; simpl.
    + rewrite prefix_empty. split; auto.
    + rewrite IH. split; [now right | intros [H | H]; [congruence | exact H]].
Qed.

Lemma includes_char_false (s : string) (ch : ascii) :
  includes s (String ch "") = false <-> ~ occurs ch s.
Proof.
  rewrite <- includes_char. destruct (includes s (String ch "")); split;
    congruence || (intro H; exfalso; now apply H).
Qed.

Lemma replace_all_doubles (s : string) :
  replace_all s dquote (DQ ++ DQ) = doubled_quotes s.
Proof.
  induction s as [| x r IH]; [reflexivity |].
  cbn [replace_all doubled_quotes]. rewrite IH.
  now destruct (x =? dquote)%char.
Qed.

Lemma quoted_doubles (s : string) : quoted s = DQ ++ doubled_quotes s ++ DQ.
Proof. unfold quoted. now rewrite replace_all_doubles. Qed.

Lemma includes_holds_any (value : string) :
  includes value "," || includes value DQ
  || includes value LF || includes value CR
  = holds_any [","%char; dquote; "010"%char; "013"%char] value.
Proof.
  change (includes value DQ) with (includes value (String dquote "")).
  unfold LF, CR. induction value as [| x r IH]; [reflexivity |].
  cbn [includes holds_any existsb String.prefix]. rewrite !prefix_empty.
  rewrite <- IH.
  destruct (ascii_dec "," x) as [<- | N1]; [reflexivity |].
  destruct (ascii_dec dquote x) as [<- | N2];
    [cbn; now rewrite !orb_true_r |].
  destruct (ascii_dec "010" x) as [<- | N3];
    [cbn; now rewrite !orb_true_r |].
  destruct (ascii_dec "013" x) as [<- | N4];
    [cbn; now rewrite !orb_true_r |].
  assert (E : forall c, c <> x -> (x =? c)%char = false)
    by (intros c Hc; apply Ascii.eqb_neq; congruence).
  now rewrite !E by assumption.
Qed.

Lemma empty_or_itself (x : string) :
  (if (x =? "")%string then "" else x) = x.
Proof. now destruct (String.eqb_spec x "") as [-> |]. Qed.

Lemma field_string_spec (c : CommentEntry) (field : string) :
  field_string c field = spec_field_text c field.
Proof.
  unfold field_string, field_value, spec_field_text.
  destruct (field =? "Page")%string; [exact (empty_or_itself _) |].
  destruct (field =? "Author")%string.
  { destruct (Author c); try reflexivity; exact (empty_or_itself _). }
  destruct (field =? "Modified")%string; [exact (empty_or_itself _) |].
  destruct (field =? "Comment")%string; [exact (empty_or_itself _) | reflexivity].
Qed.

Lemma escapeCSVField_spec (field value : string) :
  (field = "Comment" -> value <> "") ->
  escapeCSVField value field = spec_csv_field field value.
Proof.
  intro Hv. unfold escapeCSVField, spec_csv_field.
  rewrite <- includes_holds_any.
  destruct (String.eqb_spec field "Comment") as [Hf | Hf].
  - specialize (Hv Hf). apply string_eqb_false_iff in Hv. rewrite Hv.
    apply quoted_doubles.
  - destruct (String.eqb_spec value "") as [-> | _]; [reflexivity |].
    destruct (includes value "," || includes value DQ
              || includes value LF || includes value CR);
      [apply quoted_doubles | reflexivity].
Qed.

Section CsvEscaping.

Variable Date_parse : string -> option Z.

(** C8.  The comment of every entry a load leaves is non-empty; and for
    entries with a non-empty comment, whatever the selection and the
    enabled fields (one at least), the CSV text is the header followed by
    one row per exported entry in which the comment stands between double
    quotes with its double quotes doubled, whatever it holds, and any other
    field stands that way exactly when it holds a comma, a double quote, a
    line feed or a carriage return, and as it is otherwise. *)
Theorem csv_field_escaping :
  (forall pdf,
      Forall (fun c => Comment c <> "")
             (comments (handleFileSelect Date_parse pdf)))
  /\ (forall (cs : list CommentEntry) (sel : list Z) (vis : visibility),
         Forall (fun c => Comment c <> "") cs ->
         selectedFields vis <> [] ->
         saveCSV cs sel vis
         = Some (spec_csv (selectedFields vis) (selectedComments cs sel))).
Proof.
  split.
  - intro pdf. apply Forall_forall. intros c Hc.
    exact (loaded_comment_nonempty Date_parse pdf c Hc).
  - intros cs sel vis Hcs Hf. unfold saveCSV, spec_csv, csv_rows.
    destruct (Nat.eqb_spec (List.length (selectedFields vis)) 0) as [E | _];
      [apply length_zero_iff_nil in E; contradiction |].
    do 3 f_equal. apply map_ext_in. intros c Hc. f_equal.
    apply map_ext. intro field. rewrite <- field_string_spec.
    apply escapeCSVField_spec. intros ->.
    apply selectedComments_In in Hc. rewrite Forall_forall in Hcs.
    specialize (Hcs c Hc). unfold field_string, field_value. cbn.
    now destruct (String.eqb_spec (Comment c) "").
Qed.

End CsvEscaping.

Lemma csv_field_escaping_witness :
  saveCSV (comments (handleFileSelect iso_Date_parse two_pages)) [] all_columns
  = Some ("Page,Author,Modified,Comment" ++ LF
            ++ "1,Alice,," ++ DQ ++ "Looks good" ++ DQ ++ LF
            ++ "2,,2023-01-01 12:00:00Z," ++ DQ ++ "Fix this" ++ DQ)
  /\ saveCSV [quoting_entry] [0] all_columns
     = Some ("Page,Author,Modified,Comment" ++ LF
               ++ "3," ++ DQ ++ "Bob, jr" ++ DQ ++ ",,"
               ++ DQ ++ "He said " ++ DQ ++ DQ ++ "no" ++ DQ ++ DQ
               ++ ", twice" ++ LF ++ "then left" ++ DQ).
Proof.
  destruct (csv_field_escaping iso_Date_parse) as [H1 H2].
  assert (Hq : Forall (fun c => Comment c <> "") [quoting_entry])
    by (repeat constructor; discriminate).
  split.
  - exact (H2 _ [] all_columns (H1 two_pages) ltac:(discriminate)).
  - exact (H2 [quoting_entry] [0] all_columns Hq ltac:(discriminate)).
Defined.

(** ** The content chain and the author chain *)

Lemma number_to_string_nonempty (n : Z) : number_to_string n <> "".
Proof.
  unfold number_to_string.
  destruct (Z.to_int n) as [d | d]; destruct d; discriminate.
Qed.

Lemma JSON_stringify_nonempty (v : value) (s : string) :
  JSON_stringify v = Some s -> s <> "".
Proof.
  destruct v as [| | b | n | t | l | ps]; simpl; try discriminate;
    intros [= <-]; try discriminate.
  - destruct b; discriminate.
  - apply number_to_string_nonempty.
Qed.






Lemma first_nonempty_none (l : list (option string)) (s : string) :
  first_nonempty l = None -> In (Some s) l -> s = "".
Proof.
  induction l as [| [t |] l IH]; simpl; [contradiction | |].
  - destruct (String.eqb_spec t "") as [-> | Hne]; [| discriminate].
    intros H [E | Hin]; [congruence | now apply IH].
  - intros H [E | Hin]; [discriminate | now apply IH].
Qed.




Lemma JSON_stringify_truthy (v : value) :
  truthy v = true -> exists j, JSON_stringify v = Some j.
Proof. destruct v; simpl; try discriminate; eauto. Qed.

Lemma contentsObj_none (o : value) :
  (forall s,
      In (Some s)
         [as_string o; as_string (get o "str");
          if truthy o && negb (typeof o =? "string")%string
          then JSON_stringify o else None] -> s = "") ->
  (if truthy o
   then if (typeof o =? "string")%string then o
        else if truthy (get o "str") then get o "str" else stringify o
   else VStr "") = VStr "".
Proof.
  intro Hall. destruct (truthy o) eqn:Eo; [exfalso | reflexivity].
  destruct (typeof o =? "string")%string eqn:Et.
  - destruct o as [| | | | t | |]; try discriminate.
    rewrite (Hall t) in Eo by (now left). discriminate.
  - destruct (JSON_stringify_truthy o Eo) as [j Hj].
    apply (JSON_stringify_nonempty o j Hj), Hall.
    cbn [andb negb]. rewrite Hj. simpl. tauto.
Qed.

Lemma extract_contents_none (a : annotation) :
  first_nonempty (amended_comment_sources a) = None ->
  extract_contents a = VStr "".
Proof.
  intro H.
  assert (Hall : forall s, In (Some s) (amended_comment_sources a) -> s = "")
    by (intros s; now apply first_nonempty_none).
  unfold extract_contents. unfold amended_comment_sources in Hall.
  destruct (prop a "contents") as [| | b | n | t | l | ps] eqn:Ec;
    cbn [typeof String.eqb Ascii.eqb Bool.eqb truthy andb object_shaped
         as_string get] in *;
    rewrite ?andb_false_r.
  1-4: apply contentsObj_none; intros s Hs; apply Hall;
    simpl; simpl in Hs; tauto.
  - f_equal. apply Hall. now left.
  - exfalso.
    destruct (JSON_stringify (VArr l)) as [j |] eqn:Hj; [| discriminate].
    apply (JSON_stringify_nonempty _ j Hj), Hall. simpl. tauto.
  - exfalso.
    destruct (JSON_stringify (VObj ps)) as [j |] eqn:Hj; [| discriminate].
    apply (JSON_stringify_nonempty _ j Hj), Hall. simpl. tauto.
Qed.

Lemma falsy_contents_skipped (Date_parse : string -> option Z) (a : annotation) :
  truthy (extract_contents a) = false ->
  forall pageNum, process_annotation Date_parse pageNum a = Normal None.
Proof.
  intros H pageNum. unfold process_annotation. rewrite H.
  now destruct (negb (strict_eq_string (extract_subtype a) "Text")).
Qed.





Section Chains.

Variable Date_parse : string -> option Z.


End Chains.



Section AuthorChain.

Variable Date_parse : string -> option Z.




End AuthorChain.



(** ** Date arithmetic *)

Lemma DaysInYear_cases (y : Z) : DaysInYear y = 365 \/ DaysInYear y = 366.
Proof.
  unfold DaysInYear.
  destruct (y mod 4 =? 0), (y mod 100 =? 0), (y mod 400 =? 0); simpl; auto.
Qed.

Lemma DayFromYear_succ (y : Z) :
  DayFromYear (y + 1) = DayFromYear y + DaysInYear y.
Proof.
  unfold DayFromYear, DaysInYear.
  destruct (Z.eqb_spec (y mod 4) 0), (Z.eqb_spec (y mod 100) 0),
    (Z.eqb_spec (y mod 400) 0); simpl negb; cbv iota; Z.div_mod_to_equations; lia.
Qed.

Lemma DayFromYear_mono (y1 y2 : Z) :
  y1 <= y2 -> DayFromYear y1 <= DayFromYear y2.
Proof.
  unfold DayFromYear. Z.div_mod_to_equations. lia.
Qed.

Lemma YearFromDay_spec (d : Z) :
  DayFromYear (YearFromDay d) <= d < DayFromYear (YearFromDay d + 1).
Proof.
  unfold YearFromDay.
  set (e := 1970 + 400 * d / 146097).
  assert (He : DayFromYear (e - 1) <= d < DayFromYear (e + 2)).
  { unfold DayFromYear, e. Z.div_mod_to_equations. lia. }
  destruct (Z.ltb_spec d (DayFromYear e)).
  - replace (e - 1 + 1) with e by lia. lia.
  - destruct (Z.leb_spec (DayFromYear (e + 1)) d).
    + replace (e + 1 + 1) with (e + 2) by lia. lia.
    + lia.
Qed.

Lemma YearFromDay_within (y k : Z) :
  0 <= k < DaysInYear y -> YearFromDay (DayFromYear y + k) = y.
Proof.
  intro Hk. set (d := DayFromYear y + k).
  pose proof (YearFromDay_spec d) as Hd.
  pose proof (DayFromYear_succ y) as Hy.
  destruct (Z.lt_trichotomy (YearFromDay d) y) as [Hlt | [E | Hgt]];
    [| exact E |].
  - pose proof (DayFromYear_mono (YearFromDay d + 1) y ltac:(lia)). lia.
  - pose proof (DayFromYear_mono (y + 1) (YearFromDay d) ltac:(lia)). lia.
Qed.

(** The largest year starting on or before the day: the definition of
    YearFromTime in ECMA-262. *)
Lemma YearFromDay_largest (d y : Z) :
  DayFromYear y <= d <-> y <= YearFromDay d.
Proof.
  pose proof (YearFromDay_spec d) as Hd. split; intro H.
  - destruct (Z.le_gt_cases y (YearFromDay d)) as [Hle | Hgt]; [exact Hle |].
    pose proof (DayFromYear_mono (YearFromDay d + 1) y ltac:(lia)). lia.
  - pose proof (DayFromYear_mono y (YearFromDay d) H). lia.
Qed.

Lemma Day_MakeDate (day time : Z) :
  0 <= time < msPerDay -> Day (MakeDate day time) = day.
Proof.
  unfold Day, MakeDate, msPerDay. intro H. Z.div_mod_to_equations. lia.
Qed.

Lemma time_of_day_fields (day h mi s : Z) :
  0 <= h <= 23 -> 0 <= mi <= 59 -> 0 <= s <= 59 ->
  let t := MakeDate day (MakeTime h mi s 0) in
  Day t = day /\ HourFromTime t = h /\ MinFromTime t = mi
  /\ SecFromTime t = s /\ msFromTime t = 0.
Proof.
  intros Hh Hm Hs t. unfold t. split.
  - apply Day_MakeDate. unfold MakeTime, msPerDay, msPerHour, msPerMinute,
      msPerSecond. lia.
  - unfold HourFromTime, MinFromTime, SecFromTime, msFromTime, MakeDate,
      MakeTime, msPerDay, msPerHour, msPerMinute, msPerSecond.
    repeat split; Z.div_mod_to_equations; lia.
Qed.

Lemma month_and_date (t leap m k : Z) :
  InLeapYear t = leap -> leap = 0 \/ leap = 1 ->
  0 <= m <= 11 ->
  0 <= k < MonthStart leap (m + 1) - MonthStart leap m ->
  DayWithinYear t = MonthStart leap m + k ->
  MonthFromTime t = m /\ DateFromTime t = k + 1.
Proof.
  intros Hl Hleap Hm Hk Hd.
  assert (HM : MonthFromTime t = m).
  { unfold MonthFromTime. rewrite Hl, Hd.
    assert (Hcases : m = 0 \/ m = 1 \/ m = 2 \/ m = 3 \/ m = 4 \/ m = 5 \/ m = 6
                     \/ m = 7 \/ m = 8 \/ m = 9 \/ m = 10 \/ m = 11) by lia.
    clear Hd Hl. destruct Hleap as [-> | ->];
      repeat (destruct Hcases as [-> | Hcases]); try subst m;
      repeat match goal with
             | H : context [MonthStart ?l ?x] |- _ =>
                 let v := eval vm_compute in (MonthStart l x) in
                 change (MonthStart l x) with v in H
             | |- context [MonthStart ?l ?x] =>
                 let v := eval vm_compute in (MonthStart l x) in
                 change (MonthStart l x) with v
             end;
      repeat match goal with
             | |- context [?a <? ?b] =>
                 first [ replace (a <? b) with false
                           by (symmetry; apply Z.ltb_ge; lia)
                       | replace (a <? b) with true
                           by (symmetry; apply Z.ltb_lt; lia) ]
             end; reflexivity. }
  split; [exact HM |]. unfold DateFromTime. rewrite HM, Hl, Hd. lia.
Qed.
(** ** Digits and the date pattern *)

Lemma string_app_assoc (s1 s2 s3 : string) : (s1 ++ s2) ++ s3 = s1 ++ s2 ++ s3.
Proof. induction s1 as [| c r IH]; simpl; [reflexivity | now rewrite IH]. Qed.

Lemma string_length_app (s1 s2 : string) :
  String.length (s1 ++ s2) = (String.length s1 + String.length s2)%nat.
Proof. induction s1 as [| c r IH]; simpl; [reflexivity | now rewrite IH]. Qed.

Lemma all_chars_app (P : ascii -> bool) (s1 s2 : string) :
  all_chars P (s1 ++ s2) = all_chars P s1 && all_chars P s2.
Proof.
  induction s1 as [| c r IH]; simpl; [reflexivity |].
  now rewrite IH, andb_assoc.
Qed.

Lemma all_chars_impl (P Q : ascii -> bool) (s : string) :
  (forall c, P c = true -> Q c = true) ->
  all_chars P s = true -> all_chars Q s = true.
Proof.
  intro H. induction s as [| c r IH]; simpl; [trivial |].
  rewrite !andb_true_iff. intros [Hc Hr]. auto.
Qed.

Lemma digit_cases (d : Z) :
  0 <= d < 10 ->
  d = 0 \/ d = 1 \/ d = 2 \/ d = 3 \/ d = 4 \/ d = 5 \/ d = 6 \/ d = 7
  \/ d = 8 \/ d = 9.
Proof. lia. Qed.

Lemma digit_char_is_digit (d : Z) :
  0 <= d < 10 -> is_digit (digit_char d) = true.
Proof.
  intro H. apply digit_cases in H.
  repeat (destruct H as [-> | H]); try subst d; reflexivity.
Qed.

Lemma digit_char_value (d : Z) :
  0 <= d < 10 -> Z.of_N (N_of_ascii (digit_char d)) - 48 = d.
Proof.
  intro H. apply digit_cases in H.
  repeat (destruct H as [-> | H]); try subst d; reflexivity.
Qed.

Lemma digits_all_digits (w : nat) (n : Z) : all_chars is_digit (digits w n) = true.
Proof.
  revert n. induction w as [| w IH]; intro n; [reflexivity |].
  cbn [digits]. rewrite all_chars_app, IH. simpl.
  rewrite digit_char_is_digit; [reflexivity |].
  apply Z.mod_pos_bound. lia.
Qed.

Lemma digits_length (w : nat) (n : Z) : String.length (digits w n) = w.
Proof.
  revert n. induction w as [| w IH]; intro n; [reflexivity |].
  cbn [digits]. rewrite string_length_app, IH. simpl. lia.
Qed.

Lemma take_digits_app (ds r : string) :
  all_chars is_digit ds = true ->
  take_digits (String.length ds) (ds ++ r) = Some (ds, r).
Proof.
  induction ds as [| c ds IH]; simpl.
  - intros _. now destruct r.
  - rewrite andb_true_iff. intros [Hc Hds]. now rewrite Hc, IH.
Qed.

Lemma take_digits_digits (w : nat) (n : Z) (r : string) :
  take_digits w (digits w n ++ r) = Some (digits w n, r).
Proof.
  rewrite <- (digits_length w n) at 1.
  apply take_digits_app, digits_all_digits.
Qed.

Lemma digits_value_app (acc : Z) (s1 s2 : string) :
  digits_value acc (s1 ++ s2) = digits_value (digits_value acc s1) s2.
Proof.
  revert acc. induction s1 as [| c r IH]; intro acc; simpl; [reflexivity |].
  apply IH.
Qed.

Lemma to_number_digits (w : nat) (n : Z) :
  0 <= n -> to_number (digits w n) = n mod 10 ^ Z.of_nat w.
Proof.
  unfold to_number. revert n. induction w as [| w IH]; intros n Hn.
  - simpl. now rewrite Z.mod_1_r.
  - cbn [digits]. rewrite digits_value_app, IH by (apply Z.div_pos; lia).
    cbn [digits_value].
    rewrite digit_char_value by (apply Z.mod_pos_bound; lia).
    rewrite Nat2Z.inj_succ, Z.pow_succ_r by lia.
    rewrite (Z.rem_mul_r n 10 (10 ^ Z.of_nat w)) by lia. lia.
Qed.

Lemma to_number_digits_small (w : nat) (n : Z) :
  0 <= n < 10 ^ Z.of_nat w -> to_number (digits w n) = n.
Proof.
  intro H. rewrite to_number_digits by lia. now apply Z.mod_small.
Qed.

Lemma date_regex_exec_here (s : string) (m : date_groups) :
  date_match_here s = Some m -> date_regex_exec s = Some m.
Proof. destruct s; simpl; now intros ->. Qed.

(** The pattern matches a string that starts with [D:] and fourteen
    digits, and captures them group by group. *)
Lemma date_regex_exec_digits (y mo d h mi s : Z) (rest : string) :
  date_regex_exec
    ("D:" ++ digits 4 y ++ digits 2 mo ++ digits 2 d ++ digits 2 h
          ++ digits 2 mi ++ digits 2 s ++ rest)
  = Some {| g_y := digits 4 y; g_mo := digits 2 mo; g_d := digits 2 d;
            g_h := digits 2 h; g_mi := digits 2 mi; g_s := digits 2 s |}.
Proof.
  apply date_regex_exec_here.
  change ("D:" ++ ?x) with (String "D" (String ":" x)).
  cbv beta delta [date_match_here] iota.
  now rewrite !take_digits_digits.
Qed.

(** ** Replacing in a string *)

Lemma prefix_app (p s : string) : String.prefix p (p ++ s) = true.
Proof.
  induction p as [| c p IH]; simpl; [now destruct s |].
  destruct (ascii_dec c c); [exact IH | congruence].
Qed.

Lemma drop_app (p s : string) : drop (String.length p) (p ++ s) = s.
Proof. induction p as [| c p IH]; simpl; [reflexivity | exact IH]. Qed.

Lemma replace_skip (c : ascii) (pat rep s1 s2 : string) :
  all_chars (fun x => negb (x =? c)%char) s1 = true ->
  replace (s1 ++ s2) (String c pat) rep
  = s1 ++ replace s2 (String c pat) rep.
Proof.
  induction s1 as [| x r IH]; [reflexivity |].
  cbn [all_chars]. rewrite andb_true_iff, negb_true_iff. intros [Hx Hr].
  change (String x r ++ s2) with (String x (r ++ s2)).
  cbn [replace String.prefix].
  destruct (ascii_dec c x) as [-> | _].
  - now rewrite Ascii.eqb_refl in Hx.
  - cbn [append]. now rewrite IH.
Qed.

Lemma replace_here (c : ascii) (pat rep s : string) :
  replace (String c pat ++ s) (String c pat) rep = rep ++ s.
Proof.
  change (String c pat ++ s) with (String c (pat ++ s)).
  cbn [replace].
  change (String c (pat ++ s)) with (String c pat ++ s).
  now rewrite prefix_app, drop_app.
Qed.

Lemma digits_without (w : nat) (n : Z) (c : ascii) :
  is_digit c = false ->
  all_chars (fun x => negb (x =? c)%char) (digits w n) = true.
Proof.
  intro Hc. apply all_chars_impl with (P := is_digit);
    [| apply digits_all_digits].
  intros x Hx. apply negb_true_iff.
  destruct (Ascii.eqb_spec x c) as [-> | _]; [congruence | reflexivity].
Qed.

(** ** [formatDate] on a PDF date *)

Lemma MonthStart_bounds (leap m : Z) :
  leap = 0 \/ leap = 1 -> 0 <= m <= 12 ->
  0 <= MonthStart leap m <= 365 + leap.
Proof.
  intros Hl Hm.
  assert (Hcases : m = 0 \/ m = 1 \/ m = 2 \/ m = 3 \/ m = 4 \/ m = 5 \/ m = 6
                   \/ m = 7 \/ m = 8 \/ m = 9 \/ m = 10 \/ m = 11 \/ m = 12)
    by lia.
  destruct Hl as [-> | ->];
    repeat (destruct Hcases as [-> | Hcases]); try subst m;
    vm_compute; split; discriminate.
Qed.

Lemma DaysInMonth_bounds (y m : Z) :
  1 <= m <= 12 -> 28 <= DaysInMonth y m <= 31.
Proof.
  intro Hm. unfold DaysInMonth.
  assert (Hcases : m = 1 \/ m = 2 \/ m = 3 \/ m = 4 \/ m = 5 \/ m = 6
                   \/ m = 7 \/ m = 8 \/ m = 9 \/ m = 10 \/ m = 11 \/ m = 12)
    by lia.
  destruct (DaysInYear_cases y) as [-> | ->];
    repeat (destruct Hcases as [-> | Hcases]); try subst m;
    vm_compute; split; discriminate.
Qed.

Lemma MakeDay_in_year (year m date : Z) :
  0 <= m <= 11 ->
  MakeDay year m date
  = DayFromYear year + (MonthStart (DaysInYear year - 365) m + (date - 1)).
Proof.
  intro Hm. unfold MakeDay.
  rewrite Z.div_small, Z.mod_small, Z.add_0_r by lia. lia.
Qed.

Lemma year_string_four (y : Z) : 0 <= y <= 9999 -> year_string y = digits 4 y.
Proof.
  intro H. unfold year_string.
  destruct (Z.leb_spec 0 y); [| lia]. destruct (Z.leb_spec y 9999); [| lia].
  reflexivity.
Qed.

(** The calendar fields of a time value built from a date of the civil
    calendar. *)
Lemma fields_of_civil_date (year mo d h mi s : Z) :
  1 <= mo <= 12 -> 1 <= d <= DaysInMonth year mo ->
  0 <= h <= 23 -> 0 <= mi <= 59 -> 0 <= s <= 59 ->
  let t := MakeDate (MakeDay year (mo - 1) d) (MakeTime h mi s 0) in
  YearFromTime t = year /\ MonthFromTime t = mo - 1 /\ DateFromTime t = d
  /\ HourFromTime t = h /\ MinFromTime t = mi /\ SecFromTime t = s
  /\ msFromTime t = 0.
Proof.
  intros Hmo Hd Hh Hmi Hs t.
  set (leap := DaysInYear year - 365).
  assert (Hleap : leap = 0 \/ leap = 1)
    by (unfold leap; destruct (DaysInYear_cases year); lia).
  unfold DaysInMonth in Hd. fold leap in Hd.
  pose proof (MonthStart_bounds leap (mo - 1) Hleap ltac:(lia)) as Hlo.
  pose proof (MonthStart_bounds leap mo Hleap ltac:(lia)) as Hhi.
  destruct (time_of_day_fields (MakeDay year (mo - 1) d) h mi s Hh Hmi Hs)
    as (HD & HH & HM & HS & Hms).
  fold t in HD, HH, HM, HS, Hms.
  rewrite MakeDay_in_year in HD by lia. fold leap in HD.
  assert (HY : YearFromTime t = year).
  { unfold YearFromTime. rewrite HD. apply YearFromDay_within.
    unfold leap in *. lia. }
  assert (HL : InLeapYear t = leap) by (unfold InLeapYear; now rewrite HY).
  assert (HW : DayWithinYear t = MonthStart leap (mo - 1) + (d - 1))
    by (unfold DayWithinYear; rewrite HY, HD; lia).
  destruct (month_and_date t leap (mo - 1) (d - 1) HL Hleap) as [HMo HDa];
    [lia | replace (mo - 1 + 1) with mo by lia; lia | exact HW |].
  repeat split; trivial. lia.
Qed.

(** [MakeDay] as ECMA-262 words it: the day of [MakeDay year month 1] is
    the first of month [month mod 12] of year [year + floor(month / 12)]. *)
Lemma MakeDay_first_of_month (year month : Z) :
  let t := MakeDate (MakeDay year month 1) 0 in
  YearFromTime t = year + month / 12
  /\ MonthFromTime t = month mod 12
  /\ DateFromTime t = 1.
Proof.
  intro t.
  pose proof (Z.mod_pos_bound month 12 ltac:(lia)) as Hm.
  assert (E : MakeDay year month 1
              = MakeDay (year + month / 12) (month mod 12 + 1 - 1) 1).
  { unfold MakeDay.
    replace (month mod 12 + 1 - 1) with (month mod 12) by lia.
    rewrite (Z.div_small (month mod 12) 12), (Z.mod_small (month mod 12) 12)
      by lia.
    now rewrite Z.add_0_r. }
  pose proof (DaysInMonth_bounds (year + month / 12) (month mod 12 + 1)
                ltac:(lia)) as Hd.
  destruct (fields_of_civil_date (year + month / 12) (month mod 12 + 1) 1 0 0 0)
    as (F1 & F2 & F3 & _); try lia.
  change (MakeTime 0 0 0 0) with 0 in F1, F2, F3.
  unfold t. rewrite E. repeat split; [exact F1 | | exact F3].
  rewrite F2. lia.
Qed.

Lemma to_number_digits4 (n : Z) : 0 <= n <= 9999 -> to_number (digits 4 n) = n.
Proof.
  intro H. apply to_number_digits_small.
  change (10 ^ Z.of_nat 4) with 10000. lia.
Qed.

Lemma to_number_digits2 (n : Z) : 0 <= n <= 99 -> to_number (digits 2 n) = n.
Proof.
  intro H. apply to_number_digits_small.
  change (10 ^ Z.of_nat 2) with 100. lia.
Qed.

Section PdfDate.

Variable Date_parse : string -> option Z.

(** The digits of a date of the civil calendar come back as the normalized
    timestamp, the year being read by [Date.UTC]. *)
Lemma formatDate_digits (y mo d h mi s : Z) (rest : string) :
  0 <= y <= 9999 ->
  1 <= mo <= 12 -> 1 <= d <= DaysInMonth (MakeFullYear y) mo ->
  0 <= h <= 23 -> 0 <= mi <= 59 -> 0 <= s <= 59 ->
  formatDate Date_parse
    (VStr ("D:" ++ digits 4 y ++ digits 2 mo ++ digits 2 d ++ digits 2 h
                ++ digits 2 mi ++ digits 2 s ++ rest))
  = Normal (digits 4 (MakeFullYear y) ++ "-" ++ digits 2 mo ++ "-"
              ++ digits 2 d ++ " " ++ digits 2 h ++ ":" ++ digits 2 mi
              ++ ":" ++ digits 2 s ++ "Z").
Proof.
  intros Hy Hmo Hd Hh Hmi Hs.
  pose proof (DaysInMonth_bounds (MakeFullYear y) mo Hmo) as Hdm.
  assert (Hd31 : 1 <= d <= 31) by lia.
  unfold formatDate.
  replace (truthy (VStr ("D:" ++ digits 4 y ++ digits 2 mo ++ digits 2 d
                              ++ digits 2 h ++ digits 2 mi ++ digits 2 s ++ rest)))
    with true by reflexivity.
  cbn [negb to_string]. rewrite date_regex_exec_digits.
  cbn [g_y g_mo g_d g_h g_mi g_s].
  rewrite to_number_digits4 by lia. rewrite !to_number_digits2 by lia.
  set (Y := MakeFullYear y).
  assert (HY : 100 <= Y <= 9999).
  { unfold Y, MakeFullYear.
    destruct (Z.leb_spec 0 y), (Z.leb_spec y 99); cbn [andb]; lia. }
  unfold UTC. fold Y.
  set (t := MakeDate (MakeDay Y (mo - 1) d) (MakeTime h mi s 0)).
  destruct (fields_of_civil_date Y mo d h mi s Hmo Hd Hh Hmi Hs)
    as (F1 & F2 & F3 & F4 & F5 & F6 & F7).
  fold t in F1, F2, F3, F4, F5, F6, F7.
  assert (Hclip : TimeClip t = Some t).
  { unfold TimeClip.
    assert (Z.abs t <= 8640000000000000); [| now destruct (Z.leb_spec (Z.abs t) 8640000000000000); [| lia]].
    pose proof (MonthStart_bounds (DaysInYear Y - 365) (mo - 1)
                  ltac:(destruct (DaysInYear_cases Y); lia) ltac:(lia)) as Hb.
    unfold t. rewrite MakeDay_in_year by lia.
    unfold MakeDate, MakeTime, DayFromYear, msPerDay, msPerHour, msPerMinute,
      msPerSecond.
    destruct (DaysInYear_cases Y).
    all: Z.div_mod_to_equations; lia. }
  rewrite Hclip. cbn [toISOString bind].
  unfold iso_string. rewrite F1, F2, F3, F4, F5, F6, F7.
  rewrite year_string_four by lia.
  replace (mo - 1 + 1) with mo by lia.
  f_equal.
  repeat rewrite replace_skip
    by first [apply digits_without; reflexivity | reflexivity].
  rewrite replace_here.
  repeat rewrite replace_skip
    by first [apply digits_without; reflexivity | reflexivity].
  change ("." ++ digits 3 0 ++ "Z") with (".000Z" ++ "").
  now rewrite replace_here.
Qed.

(** A PDF date of the civil calendar, year 100 or later, followed by
    anything (a time zone, say), is normalized to its own digits: read as a
    UTC instant and written as [YYYY-MM-DD HH:MM:SSZ].  The empty timestamp
    gives the empty string. *)
Theorem formatDate_pdf_date (y mo d h mi s : Z) (rest : string) :
  100 <= y <= 9999 ->
  1 <= mo <= 12 -> 1 <= d <= DaysInMonth y mo ->
  0 <= h <= 23 -> 0 <= mi <= 59 -> 0 <= s <= 59 ->
  formatDate Date_parse
    (VStr ("D:" ++ digits 4 y ++ digits 2 mo ++ digits 2 d ++ digits 2 h
                ++ digits 2 mi ++ digits 2 s ++ rest))
  = Normal (digits 4 y ++ "-" ++ digits 2 mo ++ "-" ++ digits 2 d ++ " "
              ++ digits 2 h ++ ":" ++ digits 2 mi ++ ":" ++ digits 2 s ++ "Z")
  /\ formatDate Date_parse (VStr "") = Normal "".
Proof.
  intros Hy Hmo Hd Hh Hmi Hs. split; [| reflexivity].
  assert (HY : MakeFullYear y = y).
  { unfold MakeFullYear. destruct (Z.leb_spec y 99); [lia |].
    now rewrite andb_false_r. }
  rewrite formatDate_digits; rewrite ?HY; trivial; lia.
Qed.

(** C2 (the code departs from it). A year written with two leading zeros
    is read by [Date.UTC] as a year of the twentieth century: the
    timestamp comes back with 1900 added to its year. *)
Theorem formatDate_two_digit_year (y mo d h mi s : Z) (rest : string) :
  0 <= y <= 99 ->
  1 <= mo <= 12 -> 1 <= d <= DaysInMonth (1900 + y) mo ->
  0 <= h <= 23 -> 0 <= mi <= 59 -> 0 <= s <= 59 ->
  formatDate Date_parse
    (VStr ("D:" ++ digits 4 y ++ digits 2 mo ++ digits 2 d ++ digits 2 h
                ++ digits 2 mi ++ digits 2 s ++ rest))
  = Normal (digits 4 (1900 + y) ++ "-" ++ digits 2 mo ++ "-" ++ digits 2 d
              ++ " " ++ digits 2 h ++ ":" ++ digits 2 mi ++ ":" ++ digits 2 s
              ++ "Z").
Proof.
  intros Hy Hmo Hd Hh Hmi Hs.
  assert (HY : MakeFullYear y = 1900 + y).
  { unfold MakeFullYear.
    destruct (Z.leb_spec 0 y); [| lia]. destruct (Z.leb_spec y 99); [| lia].
    reflexivity. }
  rewrite formatDate_digits; rewrite ?HY; trivial; lia.
Qed.

End PdfDate.

Lemma formatDate_pdf_date_witness :
  formatDate iso_Date_parse (VStr "D:20230615143022") = Normal "2023-06-15 14:30:22Z"
  /\ formatDate iso_Date_parse (VStr "") = Normal "".
Proof.
  assert (H1 : 100 <= 2023 <= 9999) by lia.
  assert (H2 : 1 <= 6 <= 12) by lia.
  assert (H3 : 1 <= 15 <= DaysInMonth 2023 6) by (vm_compute; split; discriminate).
  assert (H4 : 0 <= 14 <= 23) by lia.
  assert (H5 : 0 <= 30 <= 59) by lia.
  assert (H6 : 0 <= 22 <= 59) by lia.
  exact (formatDate_pdf_date iso_Date_parse 2023 6 15 14 30 22 "" H1 H2 H3 H4 H5 H6).
Defined.

Lemma formatDate_two_digit_year_witness :
  formatDate iso_Date_parse (VStr "D:00500615143022")
  = Normal "1950-06-15 14:30:22Z".
Proof.
  assert (H1 : 0 <= 50 <= 99) by lia.
  assert (H2 : 1 <= 6 <= 12) by lia.
  assert (H3 : 1 <= 15 <= DaysInMonth (1900 + 50) 6)
    by (vm_compute; split; discriminate).
  assert (H4 : 0 <= 14 <= 23) by lia.
  assert (H5 : 0 <= 30 <= 59) by lia.
  assert (H6 : 0 <= 22 <= 59) by lia.
  exact (formatDate_two_digit_year iso_Date_parse 50 6 15 14 30 22 "" H1 H2 H3 H4 H5 H6).
Defined.

(** ** Further properties of the renderers and of the load *)

(** The tab-separated rendering quotes every field, the empty one too. *)
Lemma tsv_field_always_quoted (value : string) :
  escapeTSVField value = DQ ++ doubled_quotes value ++ DQ.
Proof.
  unfold escapeTSVField. destruct (String.eqb_spec value "") as [-> | _];
    [reflexivity | apply quoted_doubles].
Qed.

Lemma set_flag_In (field : string) (vis : visibility) :
  In (field, true) (set_flag field true vis).
Proof.
  induction vis as [| [k b] r IH]; simpl; [now left |].
  destruct (String.eqb_spec k field) as [-> | _]; [now left | now right].
Qed.

(** The column selector never hands over a visibility without the comment
    column. *)
Lemma handleChange_keeps_Comment (columnVisibility : visibility)
    (value : list string) :
  In "Comment" (selectedFields (handleChange columnVisibility value)).
Proof.
  unfold selectedFields, handleChange. apply in_map_iff.
  exists ("Comment", true). split; [reflexivity |].
  apply filter_In. split; [apply set_flag_In | reflexivity].
Qed.

Section LoadFacts.

Variable Date_parse : string -> option Z.

(** The advisory is raised exactly when the load went through and found
    nothing. *)
Lemma warning_iff_nothing_found (pdf : pdf_document) :
  noCommentsWarning (handleFileSelect Date_parse pdf) = true
  <-> error (handleFileSelect Date_parse pdf) = None
      /\ comments (handleFileSelect Date_parse pdf) = [].
Proof.
  unfold handleFileSelect.
  destruct (extract Date_parse pdf) as [found | e]; simpl.
  - rewrite Nat.eqb_eq, length_zero_iff_nil. tauto.
  - split; [discriminate | intros [H _]; discriminate H].
Qed.

(** A load that throws leaves no entry: nothing is kept of the pages read
    before the exception. *)
Lemma failed_load_keeps_nothing (pdf : pdf_document) (e : exn) :
  error (handleFileSelect Date_parse pdf) = Some e ->
  handleFileSelect Date_parse pdf = failed_load e.
Proof.
  unfold handleFileSelect.
  destruct (extract Date_parse pdf) as [found | e']; simpl;
    [discriminate | now intros [= ->]].
Qed.

End LoadFacts.

(** The scenario of two pages: Alice's note on page 1, a dated note without
    author on page 2. *)
Example two_pages_scenario :
  handleFileSelect iso_Date_parse two_pages
  = {| comments := two_entries; error := None; noCommentsWarning := false |}
  /\ formatTextContent two_entries [] page_author_comment
     = "P1, Alice - Looks good" ++ LF ++ LF ++ "P2 - Fix this"
  /\ saveCSV two_entries [] all_columns
     = Some ("Page,Author,Modified,Comment" ++ LF
               ++ "1,Alice,," ++ DQ ++ "Looks good" ++ DQ ++ LF
               ++ "2,,2023-01-01 12:00:00Z," ++ DQ ++ "Fix this" ++ DQ).
Proof. repeat split. Qed.

(** ** Reading back what the table renderers wrote *)

Lemma string_app_nil_r (s : string) : s ++ "" = s.
Proof. induction s as [| c r IH]; simpl; [reflexivity | now rewrite IH]. Qed.

Lemma read_boundary (sep : ascii) (rest : string) :
  sep <> dquote -> at_boundary sep rest ->
  read_table sep InPlain rest = read_table sep AtStart rest
  /\ read_table sep AfterQuote rest = read_table sep AtStart rest.
Proof.
  intros Hsep Hb. destruct rest as [| c r]; [split; reflexivity |].
  simpl in Hb. cbn [read_table].
  assert (Hq : (c =? dquote)%char = false).
  { apply Ascii.eqb_neq. destruct Hb as [-> | ->]; [exact Hsep | discriminate]. }
  rewrite Hq. destruct Hb as [-> | ->].
  - rewrite Ascii.eqb_refl. split; reflexivity.
  - destruct ("010" =? sep)%char; rewrite ?Ascii.eqb_refl; split; reflexivity.
Qed.

Lemma read_plain_field (sep : ascii) (v rest : string) :
  plain_field sep v = true ->
  read_table sep InPlain (v ++ rest)
  = push_string v (read_table sep InPlain rest).
Proof.
  unfold plain_field. induction v as [| c v IH]; [reflexivity |].
  cbn [all_chars]. rewrite andb_true_iff, negb_true_iff, !orb_false_iff.
  intros [[[H1 H2] H3] Hv].
  change (String c v ++ rest) with (String c (v ++ rest)).
  cbn [read_table push_string]. rewrite H1, H2, H3. now rewrite IH.
Qed.

Lemma read_plain_field_at_start (sep : ascii) (v rest : string) :
  sep <> dquote -> plain_field sep v = true -> at_boundary sep rest ->
  read_table sep AtStart (v ++ rest)
  = push_string v (read_table sep AtStart rest).
Proof.
  intros Hsep Hv Hb. destruct v as [| c v]; [reflexivity |].
  pose proof Hv as Hv'. unfold plain_field in Hv'. cbn [all_chars] in Hv'.
  rewrite andb_true_iff, negb_true_iff, !orb_false_iff in Hv'.
  destruct Hv' as [[[H1 H2] H3] Hr].
  change (String c v ++ rest) with (String c (v ++ rest)).
  cbn [read_table push_string]. rewrite H1, H2, H3.
  rewrite (read_plain_field sep v rest Hr).
  now rewrite (proj1 (read_boundary sep rest Hsep Hb)).
Qed.

Lemma read_quoted_body (sep : ascii) (v rest : string) :
  read_table sep InQuoted (doubled_quotes v ++ DQ ++ rest)
  = push_string v (read_table sep AfterQuote rest).
Proof.
  induction v as [| c v IH].
  - cbn [doubled_quotes push_string].
    change ("" ++ DQ ++ rest) with (String dquote rest).
    cbn [read_table]. now rewrite Ascii.eqb_refl.
  - cbn [doubled_quotes push_string].
    destruct (c =? dquote)%char eqn:Hc.
    + apply Ascii.eqb_eq in Hc. subst c.
      change (String dquote (String dquote (doubled_quotes v)) ++ DQ ++ rest)
        with (String dquote (String dquote (doubled_quotes v ++ DQ ++ rest))).
      cbn [read_table]. rewrite !Ascii.eqb_refl. now rewrite IH.
    + change (String c (doubled_quotes v) ++ DQ ++ rest)
        with (String c (doubled_quotes v ++ DQ ++ rest)).
      cbn [read_table]. rewrite Hc. now rewrite IH.
Qed.

Lemma read_written_field (sep : ascii) (e v rest : string) :
  sep <> dquote -> writes sep e v -> at_boundary sep rest ->
  read_table sep AtStart (e ++ rest)
  = push_string v (read_table sep AtStart rest).
Proof.
  intros Hsep [[-> Hv] | ->] Hb.
  - now apply read_plain_field_at_start.
  - rewrite !string_app_assoc.
    change (DQ ++ doubled_quotes v ++ DQ ++ rest)
      with (String dquote (doubled_quotes v ++ DQ ++ rest)).
    cbn [read_table]. rewrite Ascii.eqb_refl, read_quoted_body.
    now rewrite (proj2 (read_boundary sep rest Hsep Hb)).
Qed.

Lemma push_string_first (v : string) (fs : list string)
    (rs : list (list string)) :
  push_string v (Some (("" :: fs) :: rs)) = Some ((v :: fs) :: rs).
Proof.
  induction v as [| c v IH]; [reflexivity |].
  cbn [push_string]. now rewrite IH.
Qed.

Lemma read_record_end (sep : ascii) (rest : string) :
  sep <> dquote -> sep <> "010"%char -> record_end rest ->
  read_table sep AtStart rest
  = match rows_after sep rest with
    | Some rs => Some ([""] :: rs)
    | None => None
    end.
Proof.
  intros H1 H2 Hr. destruct rest as [| c more]; [reflexivity |].
  simpl in Hr. subst c. cbn [read_table rows_after].
  replace ("010" =? dquote)%char with false by reflexivity.
  apply not_eq_sym, Ascii.eqb_neq in H2. rewrite H2.
  rewrite Ascii.eqb_refl. reflexivity.
Qed.

(** A record of written fields reads back as the record of their values. *)
Lemma read_written_record (sep : ascii) (cells : list (string * string))
    (rest : string) :
  sep <> dquote -> sep <> "010"%char ->
  cells <> [] ->
  Forall (fun ev => writes sep (fst ev) (snd ev)) cells ->
  record_end rest ->
  read_table sep AtStart
    (String.concat (String sep "") (map fst cells) ++ rest)
  = match rows_after sep rest with
    | Some rs => Some (map snd cells :: rs)
    | None => None
    end.
Proof.
  intros H1 H2 Hne Hall Hr.
  induction cells as [| [e v] cells IH]; [congruence |]. clear Hne.
  inversion_clear Hall as [| ? ? He Hcells]. cbn [fst snd] in He.
  destruct cells as [| ev' cells].
  - cbn [map String.concat fst snd].
    rewrite (read_written_field sep e v rest H1 He)
      by (destruct rest; simpl in *; auto).
    rewrite read_record_end by assumption.
    destruct (rows_after sep rest) as [rs |].
    + apply push_string_first.
    + clear. induction v as [| c v IH]; [reflexivity |].
      cbn [push_string]. now rewrite IH.
  - specialize (IH ltac:(discriminate) Hcells).
    change (String.concat (String sep "") (map fst ((e, v) :: ev' :: cells)))
      with (e ++ String sep "" ++
              String.concat (String sep "") (map fst (ev' :: cells))).
    rewrite !string_app_assoc.
    rewrite (read_written_field sep e v _ H1 He) by (simpl; auto).
    change (String sep "" ++ ?x) with (String sep x).
    cbn [read_table].
    apply Ascii.eqb_neq in H1. rewrite H1.
    rewrite Ascii.eqb_refl, IH.
    destruct (rows_after sep rest) as [rs |].
    + cbn [new_field map]. apply push_string_first.
    + clear. simpl. induction v as [| c v IH]; [reflexivity |].
      cbn [push_string]. now rewrite IH.
Qed.

(** A table of written records, one per line, reads back as the table of
    their values. *)
Lemma read_written_table (sep : ascii) (table : list (list (string * string))) :
  sep <> dquote -> sep <> "010"%char ->
  table <> [] ->
  Forall (fun cells =>
            cells <> []
            /\ Forall (fun ev => writes sep (fst ev) (snd ev)) cells) table ->
  read_table sep AtStart
    (String.concat LF
       (map (fun cells => String.concat (String sep "") (map fst cells)) table))
  = Some (map (map snd) table).
Proof.
  intros H1 H2 Hne Hall.
  induction table as [| cells table IH]; [congruence |]. clear Hne.
  inversion_clear Hall as [| ? ? [Hc Hw] Htable].
  destruct table as [| cells' table].
  - cbn [map String.concat].
    rewrite <- (string_app_nil_r (String.concat (String sep "") (map fst cells))).
    now rewrite read_written_record.
  - specialize (IH ltac:(discriminate) Htable).
    change (String.concat LF
              (map (fun cells => String.concat (String sep "") (map fst cells))
                   (cells :: cells' :: table)))
      with (String.concat (String sep "") (map fst cells) ++ LF ++
              String.concat LF
                (map (fun cells => String.concat (String sep "") (map fst cells))
                     (cells' :: table))).
    rewrite read_written_record by (trivial; reflexivity).
    unfold LF. change (String "010" "" ++ ?x) with (String "010" x).
    cbn [rows_after]. unfold LF in IH. now rewrite IH.
Qed.

Lemma includes_char_all (s : string) (ch : ascii) :
  includes s (String ch "") = false ->
  all_chars (fun x => negb (x =? ch)%char) s = true.
Proof.
  induction s as [| x r IH]; [reflexivity |].
  cbn [includes String.prefix all_chars].
  destruct (ascii_dec ch x) as [-> | Hne].
  - rewrite prefix_empty. discriminate.
  - simpl. intro H. rewrite (IH H), andb_true_r.
    apply negb_true_iff, Ascii.eqb_neq. congruence.
Qed.

Lemma all_chars_and (P Q : ascii -> bool) (s : string) :
  all_chars P s = true -> all_chars Q s = true ->
  all_chars (fun x => P x && Q x) s = true.
Proof.
  induction s as [| c r IH]; simpl; [trivial |].
  rewrite !andb_true_iff. intros [H1 H2] [H3 H4]. auto.
Qed.

Lemma plain_field_from_includes (sep : ascii) (v : string) :
  includes v (String sep "") = false ->
  includes v (String dquote "") = false ->
  includes v (String "010" "") = false ->
  plain_field sep v = true.
Proof.
  intros H1 H2 H3. unfold plain_field.
  apply includes_char_all in H1, H2, H3.
  pose proof (all_chars_and _ _ _ (all_chars_and _ _ _ H1 H2) H3) as H.
  eapply all_chars_impl; [| exact H]. intros c. cbn beta.
  rewrite !negb_orb. trivial.
Qed.

Lemma escapeCSVField_writes (value fieldName : string) :
  writes "," (escapeCSVField value fieldName) value.
Proof.
  unfold escapeCSVField.
  destruct (String.eqb_spec value "") as [-> | _]; [left; now split |].
  destruct (fieldName =? "Comment")%string; [right; apply quoted_doubles |].
  destruct (includes value ",") eqn:E1; [right; apply quoted_doubles |].
  destruct (includes value DQ) eqn:E2; [right; apply quoted_doubles |].
  destruct (includes value LF) eqn:E3; [right; apply quoted_doubles |].
  destruct (includes value CR); [right; apply quoted_doubles |].
  left. split; [reflexivity |]. now apply plain_field_from_includes.
Qed.

Lemma escapeTSVField_writes (value : string) :
  writes "009" (escapeTSVField value) value.
Proof.
  right. unfold escapeTSVField.
  destruct (String.eqb_spec value "") as [-> | _];
    [reflexivity | apply quoted_doubles].
Qed.

(** The text [saveCSV] puts in the file reads back, field by field, as the
    header of the enabled field names followed by one record per exported
    entry with the values of these fields, whatever commas, double quotes
    and line breaks the values hold; the names of the fields themselves,
    which the header does not quote, must be free of commas, double quotes
    and line feeds. *)
Theorem saveCSV_reads_back (cs : list CommentEntry) (sel : list Z)
    (vis : visibility) (csv : string) :
  Forall (fun field => plain_field "," field = true) (selectedFields vis) ->
  saveCSV cs sel vis = Some csv ->
  read_table "," AtStart csv
  = Some (selectedFields vis :: exported_cells cs sel vis).
Proof.
  intros Hnames. unfold saveCSV, exported_cells, csv_rows.
  set (fields := selectedFields vis) in *.
  destruct (Nat.eqb_spec (List.length fields) 0) as [| Hlen]; [discriminate |].
  assert (Ef : fields <> []) by (now destruct fields).
  intro H. apply (f_equal (fun o => match o with Some x => x | None => "" end)) in H.
  cbv beta iota in H. subst.
  set (entries := selectedComments cs sel).
  pose (table :=
          map (fun field => (field, field)) fields
          :: map (fun c =>
                    map (fun field =>
                           (escapeCSVField (field_string c field) field,
                            field_string c field)) fields) entries).
  assert (Hfst : String.concat "," fields
                 :: map (fun c =>
                           String.concat ","
                             (map (fun field =>
                                     escapeCSVField (field_string c field) field)
                                  fields)) entries
                 = map (fun cells => String.concat "," (map fst cells)) table).
  { unfold table. cbn [map]. rewrite !map_map. cbn [fst].
    rewrite map_id. f_equal. apply map_ext. intro c. now rewrite map_map. }
  assert (Hsnd : fields :: map (fun c => map (field_string c) fields) entries
                 = map (map snd) table).
  { unfold table. cbn [map]. rewrite !map_map. cbn [snd].
    rewrite map_id. f_equal. apply map_ext. intro c. now rewrite map_map. }
  rewrite Hfst, Hsnd.
  apply (read_written_table "," table); try discriminate.
  unfold table. constructor.
  - split; [now destruct fields |].
    apply Forall_map. cbn [fst snd].
    eapply Forall_impl; [| exact Hnames]. intros field H. now left.
  - apply Forall_map, Forall_forall. intros c _.
    split; [now destruct fields |].
    apply Forall_map, Forall_forall. intros field _.
    apply escapeCSVField_writes.
Qed.

(** The text [copyCSVToClipboard] writes reads back, with the tab as
    separator, as the enabled field names followed by one record per
    exported entry with the values of these fields: every field is quoted,
    the names too, so nothing is asked of them. *)
Theorem copyCSVToClipboard_reads_back (cs : list CommentEntry) (sel : list Z)
    (vis : visibility) (tsv : string) :
  copyCSVToClipboard cs sel vis = Some tsv ->
  read_table "009" AtStart tsv
  = Some (selectedFields vis :: exported_cells cs sel vis).
Proof.
  unfold copyCSVToClipboard, exported_cells.
  set (fields := selectedFields vis) in *.
  destruct (Nat.eqb_spec (List.length fields) 0) as [| Hlen]; [discriminate |].
  assert (Ef : fields <> []) by (now destruct fields).
  intro H. apply (f_equal (fun o => match o with Some x => x | None => "" end)) in H.
  cbv beta iota in H. subst.
  set (entries := selectedComments cs sel).
  pose (table :=
          map (fun field => (escapeTSVField field, field)) fields
          :: map (fun c =>
                    map (fun field =>
                           (escapeTSVField (field_string c field),
                            field_string c field)) fields) entries).
  assert (Hfst : String.concat TAB (map escapeTSVField fields)
                 :: map (fun c =>
                           String.concat TAB
                             (map (fun field =>
                                     escapeTSVField (field_string c field))
                                  fields)) entries
                 = map (fun cells => String.concat (String "009" "") (map fst cells))
                       table).
  { unfold table. cbn [map]. rewrite !map_map. cbn [fst].
    f_equal. apply map_ext. intro c. now rewrite map_map. }
  assert (Hsnd : fields :: map (fun c => map (field_string c) fields) entries
                 = map (map snd) table).
  { unfold table. cbn [map]. rewrite !map_map. cbn [snd].
    rewrite map_id. f_equal. apply map_ext. intro c. now rewrite map_map. }
  rewrite Hfst, Hsnd.
  apply (read_written_table "009" table); try discriminate.
  unfold table. constructor.
  - split; [now destruct fields |].
    apply Forall_map, Forall_forall. intros field _. apply escapeTSVField_writes.
  - apply Forall_map, Forall_forall. intros c _.
    split; [now destruct fields |].
    apply Forall_map, Forall_forall. intros field _.
    apply escapeTSVField_writes.
Qed.

Lemma saveCSV_reads_back_witness :
  saveCSV (two_entries ++ [quoting_entry])%list [] all_columns
  = Some (String.concat LF
            (String.concat "," (selectedFields all_columns)
               :: csv_rows (selectedFields all_columns)
                    (two_entries ++ [quoting_entry])%list))
  /\ read_table "," AtStart
       (String.concat LF
          (String.concat "," (selectedFields all_columns)
             :: csv_rows (selectedFields all_columns)
                  (two_entries ++ [quoting_entry])%list))
     = Some (selectedFields all_columns
               :: exported_cells (two_entries ++ [quoting_entry])%list []
                    all_columns).
Proof.
  split; [reflexivity |].
  apply (saveCSV_reads_back (two_entries ++ [quoting_entry])%list [] all_columns).
  - repeat constructor.
  - reflexivity.
Defined.

Lemma copyCSVToClipboard_reads_back_witness :
  match copyCSVToClipboard (two_entries ++ [quoting_entry])%list [2; 0]
          all_columns with
  | Some tsv => read_table "009" AtStart tsv
  | None => None
  end
  = Some (selectedFields all_columns
            :: exported_cells (two_entries ++ [quoting_entry])%list [2; 0]
                 all_columns).
Proof.
  exact (copyCSVToClipboard_reads_back
           (two_entries ++ [quoting_entry])%list [2; 0] all_columns _ eq_refl).
Defined.

(** ** File names *)

Lemma strip_extension_no_dot (s : string) :
  all_chars (fun x => negb (x =? ".")%char) s = true ->
  strip_extension s = s.
Proof.
  induction s as [| c r IH]; [reflexivity |].
  cbn [all_chars strip_extension]. rewrite andb_true_iff, negb_true_iff.
  intros [Hc Hr]. rewrite Hc. cbn [andb]. now rewrite IH.
Qed.

Lemma strip_extension_last (base ext : string) :
  ext <> "" ->
  all_chars (fun x => negb ((x =? "/") || (x =? "."))%char) ext = true ->
  strip_extension (base ++ "." ++ ext) = base.
Proof.
  intros Hne Hext. induction base as [| c base IH].
  - change ("" ++ "." ++ ext) with (String "." ext).
    cbn [strip_extension]. rewrite Hext.
    apply string_eqb_false_iff in Hne. now rewrite Hne.
  - change (String c base ++ "." ++ ext) with (String c (base ++ "." ++ ext)).
    cbn [strip_extension]. rewrite IH.
    replace (all_chars (fun x => negb ((x =? "/") || (x =? "."))%char)
                       (base ++ "." ++ ext)) with false;
      [now rewrite andb_false_r |].
    symmetry. rewrite all_chars_app.
    change ("." ++ ext) with (String "." ext). cbn [all_chars].
    now rewrite andb_false_r.
Qed.

(** The files saved for a document named [base.ext] are named
    [base_comments.csv] and [base_comments.txt], whatever [base] holds
    (dots, slashes, nothing at all), as long as the extension is not empty
    and holds neither dot nor slash; a name without any dot is kept whole
    before the suffix; and without a name the files are called
    [file_comments]. *)
Theorem export_file_names (cs : list CommentEntry) (sel : list Z)
    (vis : visibility) (base ext name : string) :
  ext <> "" ->
  all_chars (fun x => negb ((x =? "/") || (x =? "."))%char) ext = true ->
  all_chars (fun x => negb (x =? ".")%char) name = true ->
  name <> "" ->
  (forall csv, saveCSV cs sel vis = Some csv ->
     saveCSV_file cs sel vis (base ++ "." ++ ext)
       = Some (csv, base ++ "_comments.csv")
     /\ saveCSV_file cs sel vis name = Some (csv, name ++ "_comments.csv")
     /\ saveCSV_file cs sel vis "" = Some (csv, "file_comments.csv"))
  /\ (formatTextContent cs sel vis <> "" ->
      saveTXT cs sel vis (base ++ "." ++ ext)
        = Some (formatTextContent cs sel vis, base ++ "_comments.txt")
      /\ saveTXT cs sel vis name
         = Some (formatTextContent cs sel vis, name ++ "_comments.txt")
      /\ saveTXT cs sel vis ""
         = Some (formatTextContent cs sel vis, "file_comments.txt")).
Proof.
  intros Hext1 Hext2 Hname Hname'.
  assert (B1 : baseFileName (base ++ "." ++ ext) = base).
  { unfold baseFileName.
    replace (base ++ "." ++ ext =? "")%string with false
      by (symmetry; apply string_eqb_false_iff; destruct base; discriminate).
    now apply strip_extension_last. }
  assert (B2 : baseFileName name = name).
  { unfold baseFileName. apply string_eqb_false_iff in Hname'.
    rewrite Hname'. now apply strip_extension_no_dot. }
  split.
  - intros csv Hcsv. unfold saveCSV_file. rewrite Hcsv, B1, B2. auto.
  - intro Ht. unfold saveTXT. apply string_eqb_false_iff in Ht.
    rewrite Ht, B1, B2. auto.
Qed.

Lemma export_file_names_witness :
  saveCSV_file two_entries [] page_author_comment "report.v2.pdf"
  = Some ("Page,Author,Comment" ++ LF ++ "1,Alice," ++ DQ ++ "Looks good" ++ DQ
            ++ LF ++ "2,," ++ DQ ++ "Fix this" ++ DQ,
          "report.v2_comments.csv")
  /\ saveTXT two_entries [] page_author_comment "notes"
     = Some (formatTextContent two_entries [] page_author_comment,
             "notes_comments.txt").
Proof.
  assert (H1 : "pdf" <> "") by discriminate.
  assert (H2 : all_chars (fun x => negb ((x =? "/") || (x =? "."))%char) "pdf"
               = true) by reflexivity.
  assert (H3 : all_chars (fun x => negb (x =? ".")%char) "notes" = true)
    by reflexivity.
  assert (H4 : "notes" <> "") by discriminate.
  destruct (export_file_names two_entries [] page_author_comment
              "report.v2" "pdf" "notes" H1 H2 H3 H4) as [Hcsv Htxt].
  split.
  - exact (proj1 (Hcsv _ eq_refl)).
  - apply Htxt. discriminate.
Defined.

(** ** The text export and the buttons *)

Lemma concat_nonempty (sep x : string) (l : list string) :
  x <> "" -> String.concat sep (x :: l) <> "".
Proof.
  intro Hx. destruct l as [| y l]; cbn [String.concat]; [exact Hx |].
  destruct x; [congruence | discriminate].
Qed.

Lemma text_line_nonempty (fields : list string) (c : CommentEntry) :
  In "Comment" fields -> Comment c <> "" -> text_line fields c <> "".
Proof.
  intros Hin Hc. rewrite text_line_spec. unfold spec_text_line.
  replace (existsb (String.eqb "Comment") fields) with true.
  - destruct (String.concat ", " (spec_prefix_parts fields c) =? "")%string;
      [exact Hc |].
    destruct (String.concat ", " (spec_prefix_parts fields c));
      [destruct (Comment c); [congruence | discriminate] | discriminate].
  - symmetry. apply existsb_exists. exists "Comment".
    split; [exact Hin | reflexivity].
Qed.

(** With the Comment column on and a first exported entry whose comment is
    not empty, the text is not empty: [saveTXT] saves it and
    [copyToClipboard] copies it, or shows it when the clipboard refuses.
    With no entry to export none of them does anything, while [saveCSV]
    still saves a file made of the header alone. *)
Theorem text_export_when (cs : list CommentEntry) (sel : list Z)
    (vis : visibility) (fileName : string) :
  (forall c rest,
      In "Comment" (selectedFields vis) ->
      selectedComments cs sel = c :: rest -> Comment c <> "" ->
      exists text,
        text <> "" /\ text = formatTextContent cs sel vis
        /\ saveTXT cs sel vis fileName
           = Some (text, baseFileName fileName ++ "_comments.txt")
        /\ copyToClipboard true cs sel vis = Copied text
        /\ exists intro, copyToClipboard false cs sel vis
                         = Alerted (intro ++ text))
  /\ (selectedComments cs sel = [] ->
      saveTXT cs sel vis fileName = None
      /\ (forall ok, copyToClipboard ok cs sel vis = NothingCopied)
      /\ (selectedFields vis <> [] ->
          saveCSV cs sel vis
          = Some (String.concat "," (selectedFields vis)))).
Proof.
  split.
  - intros c rest Hin Hsel Hc.
    exists (formatTextContent cs sel vis).
    assert (Hne : formatTextContent cs sel vis <> "").
    { unfold formatTextContent.
      destruct (selectedFields vis) as [| f fs] eqn:Ef; [contradiction |].
      cbn [List.length Nat.eqb]. rewrite Hsel. cbn [map].
      apply concat_nonempty, text_line_nonempty; assumption. }
    split; [exact Hne |]. split; [reflexivity |].
    unfold saveTXT, copyToClipboard.
    apply string_eqb_false_iff in Hne. rewrite Hne.
    split; [reflexivity |]. split; [reflexivity |].
    eexists. rewrite <- !string_app_assoc. reflexivity.
  - intro Hsel.
    assert (He : formatTextContent cs sel vis = "").
    { unfold formatTextContent. rewrite Hsel.
      now destruct (List.length (selectedFields vis) =? 0)%nat. }
    unfold saveTXT, copyToClipboard, saveCSV. rewrite He, Hsel.
    split; [reflexivity |]. split; [reflexivity |].
    intro Hf. destruct (selectedFields vis); [congruence | reflexivity].
Qed.

Lemma text_export_when_witness :
  (exists text,
      text <> "" /\ text = formatTextContent two_entries [] page_author_comment
      /\ saveTXT two_entries [] page_author_comment "a.pdf"
         = Some (text, baseFileName "a.pdf" ++ "_comments.txt")
      /\ copyToClipboard true two_entries [] page_author_comment = Copied text
      /\ exists intro, copyToClipboard false two_entries [] page_author_comment
                       = Alerted (intro ++ text))
  /\ saveTXT two_entries [7] page_author_comment "a.pdf" = None
  /\ saveCSV two_entries [7] page_author_comment = Some "Page,Author,Comment".
Proof.
  destruct (text_export_when two_entries [] page_author_comment "a.pdf")
    as [H1 _].
  destruct (text_export_when two_entries [7] page_author_comment "a.pdf")
    as [_ H2].
  split.
  - apply (H1 (entry 1 "Alice" "Looks good" "")
              [entry 2 "" "Fix this" "2023-01-01 12:00:00Z"]);
      [simpl; tauto | reflexivity | discriminate].
  - destruct (H2 eq_refl) as (Ha & _ & Hb).
    split; [exact Ha | apply Hb; discriminate].
Defined.

(** The buttons are disabled exactly when there is no entry or no flag of
    the visibility is on, the flag of the selection column included: they
    are enabled whenever there are entries and a field to export, and they
    stay enabled, with entries, as long as the selection column is
    visible, even when no field is left to export. *)
Theorem export_buttons (cs : list CommentEntry) (vis : visibility) :
  (export_disabled cs vis = false
   <-> cs <> [] /\ exists k, In (k, true) vis)
  /\ (cs <> [] -> selectedFields vis <> [] -> export_disabled cs vis = false)
  /\ (cs <> [] -> In ("__check__", true) vis ->
      export_disabled cs vis = false).
Proof.
  assert (Hiff : export_disabled cs vis = false
                 <-> cs <> [] /\ exists k, In (k, true) vis).
  { unfold export_disabled. rewrite orb_false_iff, Nat.eqb_neq.
    rewrite length_zero_iff_nil.
    assert (Hall : forallb (fun kv => negb (snd kv)) vis = false
                   <-> exists k, In (k, true) vis).
    { induction vis as [| [k b] r IH]; simpl.
      - split; [discriminate | intros [k []]].
      - rewrite andb_false_iff, negb_false_iff, IH. split.
        + intros [-> | [k' Hk']]; [exists k; now left | exists k'; now right].
        + intros [k' [[= -> ->] | Hk']]; [now left | right; now exists k']. }
    now rewrite Hall. }
  split; [exact Hiff |]. split.
  - intros Hcs Hf. apply Hiff. split; [exact Hcs |].
    unfold selectedFields in Hf.
    destruct (filter (fun kv => snd kv && negb (fst kv =? "__check__")%string) vis)
      as [| [k b] r] eqn:E; [contradiction |].
    assert (Hin : In (k, b) (filter (fun kv => snd kv
                                       && negb (fst kv =? "__check__")%string) vis))
      by (rewrite E; now left).
    apply filter_In in Hin as [Hin Hb]. cbn [fst snd] in Hb.
    apply andb_true_iff in Hb as [-> _]. now exists k.
  - intros Hcs Hin. apply Hiff. split; [exact Hcs | now exists "__check__"].
Qed.

Lemma export_buttons_witness :
  export_disabled two_entries page_author_comment = false
  /\ export_disabled two_entries no_columns = false
  /\ saveCSV two_entries [] no_columns = None.
Proof.
  destruct (export_buttons two_entries page_author_comment) as (_ & H1 & _).
  destruct (export_buttons two_entries no_columns) as (_ & _ & H2).
  split; [apply H1; discriminate |].
  split; [apply H2; [discriminate | simpl; tauto] | reflexivity].
Defined.

(** ** The drag overlay *)

Lemma drag_invariant (events : list drag_event) (s : drag_state) :
  leaves_follow_enters (dragCounter s) events ->
  0 <= dragCounter s ->
  (isDragOverlay s = true -> 0 < dragCounter s) ->
  let s' := fold_left handleWindowDrag events s in
  0 <= dragCounter s' /\ (isDragOverlay s' = true -> 0 < dragCounter s').
Proof.
  revert s. induction events as [| e events IH]; intros s Hev Hc Ho.
  - simpl. auto.
  - cbn [fold_left]. destruct e as [has_items | | |]; cbn [leaves_follow_enters] in Hev.
    + apply IH; cbn [handleWindowDrag dragCounter isDragOverlay];
        [exact Hev | lia | intros _; lia].
    + destruct Hev as [Hd Hev].
      apply IH; cbn [handleWindowDrag dragCounter isDragOverlay];
        [exact Hev | lia |].
      destruct (Z.eqb_spec (dragCounter s - 1) 0); [discriminate |].
      intro H. specialize (Ho H). lia.
    + apply IH; assumption.
    + apply IH; cbn [handleWindowDrag dragCounter isDragOverlay];
        [exact Hev | lia | discriminate].
Qed.

(** As long as no [dragleave] comes without its [dragenter], the counter
    of the drag handlers never goes below zero and the overlay is shown
    only while it is above zero: once every entered target is left, or
    after a drop, the overlay is hidden. *)
Theorem drag_overlay_hidden_when_left (events : list drag_event) :
  leaves_follow_enters 0 events ->
  let s := fold_left handleWindowDrag events drag_start in
  0 <= dragCounter s
  /\ (isDragOverlay s = true -> 0 < dragCounter s)
  /\ (dragCounter s = 0 -> isDragOverlay s = false).
Proof.
  intros Hev s.
  destruct (drag_invariant events drag_start Hev) as [H1 H2];
    [simpl; lia | discriminate |].
  fold s in H1, H2. split; [exact H1 |]. split; [exact H2 |].
  intro H0. destruct (isDragOverlay s); [| reflexivity].
  specialize (H2 eq_refl). lia.
Qed.

Lemma drag_overlay_hidden_when_left_witness :
  let s := fold_left handleWindowDrag
             [DragEnter true; DragEnter true; DragOver; DragLeave; DragLeave]
             drag_start in
  0 <= dragCounter s
  /\ (isDragOverlay s = true -> 0 < dragCounter s)
  /\ (dragCounter s = 0 -> isDragOverlay s = false).
Proof.
  apply drag_overlay_hidden_when_left. simpl. lia.
Defined.

(** An overlay that stays: a [dragleave] met before any [dragenter] takes
    the counter below zero, and the overlay shown by the next entry is not
    hidden by the leave that follows it. *)
Example stray_leave_keeps_overlay :
  fold_left handleWindowDrag [DragLeave; DragEnter true; DragLeave] drag_start
  = {| dragCounter := -1; isDragOverlay := true |}.
Proof. reflexivity. Qed.

(** ** Selecting by exclusion *)

Lemma existsb_eqb_In (j : Z) (l : list Z) :
  existsb (Z.eqb j) l = true <-> In j l.
Proof.
  rewrite existsb_exists. split.
  - intros (x & Hx & E). now apply Z.eqb_eq in E as ->.
  - intro H. exists j. split; [exact H | apply Z.eqb_refl].
Qed.

Lemma excluded_membership (n : nat) (ids : list Z) (j : Z) :
  0 <= j < Z.of_nat n ->
  existsb (Z.eqb j) (handleSelectionChange n (SelExclude ids))
  = negb (existsb (Z.eqb j) ids).
Proof.
  intro Hj. cbn [handleSelectionChange]. apply eq_true_iff_eq.
  rewrite existsb_eqb_In, filter_In, in_map_iff. split.
  - intros [_ H]. exact H.
  - intro H. split; [| exact H].
    exists (Z.to_nat j). split; [lia |]. apply in_seq. lia.
Qed.

Lemma spec_subset_from_except (k : Z) (cs : list CommentEntry) (sel ids : list Z) :
  (forall j, k <= j < k + Z.of_nat (List.length cs) ->
             existsb (Z.eqb j) sel = negb (existsb (Z.eqb j) ids)) ->
  spec_subset_from k cs sel = entries_except k cs ids.
Proof.
  revert k. induction cs as [| c r IH]; intros k H; [reflexivity |].
  cbn [spec_subset_from entries_except].
  rewrite (H k) by (cbn [List.length]; lia).
  rewrite IH by (intros j Hj; apply H; cbn [List.length]; lia).
  now destruct (existsb (Z.eqb k) ids).
Qed.

(** After a selection reported by exclusion the export holds the entries
    that are not excluded, in their own order; but when every entry is
    excluded the selection is empty, and the export falls back to all the
    entries. *)
Theorem export_after_exclusion (cs : list CommentEntry) (ids : list Z) :
  let selectedRows := handleSelectionChange (List.length cs) (SelExclude ids) in
  (entries_except 0 cs ids <> [] ->
   selectedComments cs selectedRows = entries_except 0 cs ids)
  /\ (entries_except 0 cs ids = [] -> selectedComments cs selectedRows = cs).
Proof.
  intro sel.
  assert (He : spec_subset_from 0 cs sel = entries_except 0 cs ids).
  { apply spec_subset_from_except. intros j Hj.
    apply excluded_membership. lia. }
  assert (Hs : sel <> [] -> selectedComments cs sel = entries_except 0 cs ids).
  { intro Hne. rewrite selectedComments_nonempty by exact Hne.
    rewrite <- He, <- ascending_selection_from
      by apply excluded_selection_ascending.
    f_equal. apply map_ext. intro j. now rewrite Z.sub_0_r. }
  split; intro H.
  - apply Hs. intros E. apply H. rewrite <- He, E.
    apply spec_subset_from_empty.
  - destruct sel as [| i sel'] eqn:E; [reflexivity |].
    exfalso. assert (Hin : In i (i :: sel')) by now left.
    rewrite <- E in Hin. unfold sel in Hin. cbn [handleSelectionChange] in Hin.
    apply filter_In in Hin as [Hin Hex].
    apply in_map_iff in Hin as (m & <- & Hm). apply in_seq in Hm.
    assert (Hnone : forall k cs',
               entries_except k cs' ids = [] ->
               forall j, k <= j < k + Z.of_nat (List.length cs') ->
                         existsb (Z.eqb j) ids = true).
    { clear. intros k cs'. revert k.
      induction cs' as [| c r IH]; intros k Hk j Hj;
        [cbn [List.length] in Hj; lia |].
      cbn [entries_except] in Hk.
      destruct (existsb (Z.eqb k) ids) eqn:Ek; [| discriminate].
      destruct (Z.eq_dec j k) as [-> | Hne]; [exact Ek |].
      apply (IH (k + 1) Hk). cbn [List.length] in Hj. lia. }
    rewrite (Hnone 0 cs H (Z.of_nat m)) in Hex by lia. discriminate.
Qed.

Lemma export_after_exclusion_witness :
  selectedComments five_entries
    (handleSelectionChange (List.length five_entries) (SelExclude [3; 1]))
  = [entry 1 "" "a" ""; entry 2 "" "c" ""; entry 3 "" "e" ""]
  /\ selectedComments five_entries
       (handleSelectionChange (List.length five_entries)
          (SelExclude [4; 3; 2; 1; 0]))
     = five_entries.
Proof.
  destruct (export_after_exclusion five_entries [3; 1]) as [H1 _].
  destruct (export_after_exclusion five_entries [4; 3; 2; 1; 0]) as [_ H2].
  split; [apply H1; discriminate | apply H2; reflexivity].
Defined.

(** ** The column selector *)

Lemma set_flag_present (field : string) (flag : bool) (vis : visibility) :
  NoDup (map fst vis) -> In field (map fst vis) ->
  set_flag field flag vis
  = map (fun kv => (fst kv, if (fst kv =? field)%string then flag else snd kv))
        vis.
Proof.
  induction vis as [| [k b] r IH]; [contradiction |].
  cbn [map fst snd set_flag]. intros Hnd Hin.
  inversion_clear Hnd as [| ? ? Hk Hr].
  destruct (String.eqb_spec k field) as [-> | Hne].
  - f_equal. rewrite <- (map_id r) at 1. apply map_ext_in.
    intros [k' b'] Hin'. cbn [fst snd].
    destruct (String.eqb_spec k' field) as [-> | _]; [| reflexivity].
    exfalso. apply Hk. apply in_map_iff. now exists (field, b').
  - f_equal. apply IH; [exact Hr |].
    destruct Hin as [E | Hin]; [congruence | exact Hin].
Qed.

Lemma ticked_flags (value : list string) (vis : visibility) :
  NoDup (map fst vis) ->
  Forall (fun field => In field (map fst vis)) value ->
  fold_left (fun v field => set_flag field true v) value vis
  = map (fun kv => (fst kv, snd kv || existsb (String.eqb (fst kv)) value)) vis.
Proof.
  revert vis. induction value as [| f value IH]; intros vis Hnd Hall.
  - cbn [fold_left existsb]. rewrite <- (map_id vis) at 1.
    apply map_ext. intros [k b]. cbn [fst snd]. now rewrite orb_false_r.
  - inversion_clear Hall as [| ? ? Hf Hvalue]. cbn [fold_left].
    rewrite (set_flag_present f true vis Hnd Hf).
    rewrite IH.
    + rewrite map_map. apply map_ext. intros [k b]. cbn [fst snd existsb].
      destruct (k =? f)%string; destruct b; reflexivity.
    + now rewrite map_map, (map_ext _ fst) by reflexivity.
    + rewrite map_map, (map_ext _ fst) by reflexivity. exact Hvalue.
Qed.

(** What the column selector hands over, when the ticked fields and the
    comment column are keys of the visibility: the same keys in the same
    order, on for the ticked fields and for the comment column, off for
    the others.  The fields exported afterwards are the ticked ones and
    the comment column, without the selection column, in the order of the
    keys and not in the order of the ticks. *)
Theorem column_selector_result (vis : visibility) (value : list string) :
  NoDup (map fst vis) ->
  Forall (fun field => In field (map fst vis)) value ->
  In "Comment" (map fst vis) ->
  handleChange vis value
  = map (fun kv => (fst kv,
                    existsb (String.eqb (fst kv)) value
                    || (fst kv =? "Comment")%string)) vis
  /\ selectedFields (handleChange vis value)
     = filter (fun k => (existsb (String.eqb k) value || (k =? "Comment")%string)
                        && negb (k =? "__check__")%string)
              (map fst vis).
Proof.
  intros Hnd Hvalue Hc.
  assert (H : handleChange vis value
              = map (fun kv => (fst kv,
                                existsb (String.eqb (fst kv)) value
                                || (fst kv =? "Comment")%string)) vis).
  { unfold handleChange.
    assert (Hkeys : map fst (map (fun kv : string * bool => (fst kv, false)) vis)
                    = map fst vis)
      by (rewrite map_map; now apply map_ext).
    rewrite ticked_flags by (rewrite Hkeys; assumption).
    rewrite set_flag_present.
    - rewrite !map_map. apply map_ext. intros [k b]. cbn [fst snd orb].
      destruct (k =? "Comment")%string;
        [now rewrite orb_true_r | now rewrite orb_false_r].
    - rewrite !map_map. now rewrite (map_ext _ fst) by reflexivity.
    - rewrite !map_map. now rewrite (map_ext _ fst) by reflexivity. }
  split; [exact H |]. rewrite H. unfold selectedFields.
  clear. induction vis as [| [k b] r IH]; [reflexivity |].
  cbn [map filter fst snd].
  destruct ((existsb (String.eqb k) value || (k =? "Comment")%string)
            && negb (k =? "__check__")%string);
    cbn [map fst]; now rewrite IH.
Qed.

Lemma column_selector_result_witness :
  selectedFields (handleChange DEFAULT_COLUMNS ["Modified"; "__check__"; "Page"])
  = ["Page"; "Modified"; "Comment"].
Proof.
  assert (H1 : NoDup (map fst DEFAULT_COLUMNS)).
  { repeat constructor; simpl; intuition discriminate. }
  assert (H2 : Forall (fun field => In field (map fst DEFAULT_COLUMNS))
                      ["Modified"; "__check__"; "Page"])
    by (repeat constructor; simpl; tauto).
  assert (H3 : In "Comment" (map fst DEFAULT_COLUMNS)) by (simpl; tauto).
  destruct (column_selector_result DEFAULT_COLUMNS
              ["Modified"; "__check__"; "Page"] H1 H2 H3) as [_ H].
  exact H.
Defined.

(** ** Timestamps that match the pattern *)

Lemma take_digits_sound (k : nat) (s ds rest : string) :
  take_digits k s = Some (ds, rest) ->
  all_chars is_digit ds = true /\ String.length ds = k.
Proof.
  revert s ds rest. induction k as [| k IH]; intros s ds rest.
  - cbn [take_digits]. intros [= <- _]. now split.
  - destruct s as [| c r]; cbn [take_digits]; [discriminate |].
    destruct (is_digit c) eqn:Ec; [| discriminate].
    destruct (take_digits k r) as [[ds' rest'] |] eqn:Er; [| discriminate].
    intros [= <- _]. destruct (IH _ _ _ Er) as [H1 H2].
    cbn [all_chars String.length]. rewrite Ec, H1, H2. now split.
Qed.

Lemma digits_value_bounds (s : string) (acc : Z) :
  all_chars is_digit s = true -> 0 <= acc ->
  0 <= digits_value acc s < (acc + 1) * 10 ^ Z.of_nat (String.length s).
Proof.
  revert acc. induction s as [| c r IH]; intros acc Hs Hacc.
  - cbn [digits_value String.length]. change (10 ^ Z.of_nat 0) with 1. lia.
  - cbn [all_chars] in Hs. apply andb_prop in Hs as [Hc Hr].
    cbn [digits_value String.length].
    assert (Hv : 0 <= Z.of_N (N_of_ascii c) - 48 <= 9).
    { unfold is_digit in Hc. apply andb_prop in Hc as [H1 H2].
      apply N.leb_le in H1, H2. lia. }
    specialize (IH (10 * acc + (Z.of_N (N_of_ascii c) - 48)) Hr ltac:(lia)).
    rewrite Nat2Z.inj_succ, Z.pow_succ_r by lia.
    assert (Hp : 0 < 10 ^ Z.of_nat (String.length r))
      by (apply Z.pow_pos_nonneg; lia).
    split; [lia |]. eapply Z.lt_le_trans; [apply IH |]. nia.
Qed.

Lemma taken_number (k : nat) (s ds rest : string) :
  take_digits k s = Some (ds, rest) ->
  0 <= to_number ds < 10 ^ Z.of_nat k.
Proof.
  intro H. apply take_digits_sound in H as [H1 H2].
  pose proof (digits_value_bounds ds 0 H1 ltac:(lia)) as Hb.
  rewrite H2 in Hb. unfold to_number. lia.
Qed.

Lemma date_match_here_bounds (s : string) (m : date_groups) :
  date_match_here s = Some m -> group_bounds m.
Proof.
  unfold date_match_here.
  destruct s as [| c0 s]; [discriminate |].
  destruct s as [| c1 r0]; [now destruct c0 as [[] [] [] [] [] [] [] []] |].
  destruct (take_digits 4 r0) as [[y r1] |] eqn:E1;
    [| destruct c0 as [[] [] [] [] [] [] [] []]; try discriminate;
       destruct c1 as [[] [] [] [] [] [] [] []]; discriminate].
  destruct (take_digits 2 r1) as [[mo r2] |] eqn:E2;
    [| destruct c0 as [[] [] [] [] [] [] [] []]; try discriminate;
       destruct c1 as [[] [] [] [] [] [] [] []]; discriminate].
  destruct (take_digits 2 r2) as [[d r3] |] eqn:E3;
    [| destruct c0 as [[] [] [] [] [] [] [] []]; try discriminate;
       destruct c1 as [[] [] [] [] [] [] [] []]; discriminate].
  destruct (take_digits 2 r3) as [[h r4] |] eqn:E4;
    [| destruct c0 as [[] [] [] [] [] [] [] []]; try discriminate;
       destruct c1 as [[] [] [] [] [] [] [] []]; discriminate].
  destruct (take_digits 2 r4) as [[mi r5] |] eqn:E5;
    [| destruct c0 as [[] [] [] [] [] [] [] []]; try discriminate;
       destruct c1 as [[] [] [] [] [] [] [] []]; discriminate].
  destruct (take_digits 2 r5) as [[sec r6] |] eqn:E6;
    [| destruct c0 as [[] [] [] [] [] [] [] []]; try discriminate;
       destruct c1 as [[] [] [] [] [] [] [] []]; discriminate].
  intro H.
  assert (Hm : m = {| g_y := y; g_mo := mo; g_d := d;
                      g_h := h; g_mi := mi; g_s := sec |}).
  { destruct c0 as [[] [] [] [] [] [] [] []]; try discriminate;
      destruct c1 as [[] [] [] [] [] [] [] []]; try discriminate.
    now injection H. }
  subst m. unfold group_bounds. cbn [g_y g_mo g_d g_h g_mi g_s].
  apply taken_number in E1, E2, E3, E4, E5, E6.
  change (10 ^ Z.of_nat 4) with 10000 in E1.
  change (10 ^ Z.of_nat 2) with 100 in E2, E3, E4, E5, E6. lia.
Qed.

Lemma date_regex_exec_bounds (s : string) (m : date_groups) :
  date_regex_exec s = Some m -> group_bounds m.
Proof.
  induction s as [| c r IH]; cbn [date_regex_exec].
  - destruct (date_match_here "") eqn:E; [| discriminate].
    intros [= <-]. exact (date_match_here_bounds _ _ E).
  - destruct (date_match_here (String c r)) eqn:E; [| exact IH].
    intros [= <-]. exact (date_match_here_bounds _ _ E).
Qed.

Lemma UTC_of_two_digit_fields (y mo d h mi s : Z) :
  0 <= y <= 9999 -> 0 <= mo <= 99 -> 0 <= d <= 99 ->
  0 <= h <= 99 -> 0 <= mi <= 99 -> 0 <= s <= 99 ->
  exists t, UTC y (mo - 1) d h mi s = Some t.
Proof.
  intros Hy Hmo Hd Hh Hmi Hs. unfold UTC, TimeClip.
  set (Y := MakeFullYear y).
  assert (HY : 0 <= Y <= 9999).
  { unfold Y, MakeFullYear.
    destruct (Z.leb_spec 0 y), (Z.leb_spec y 99); cbn [andb]; lia. }
  set (t := MakeDate _ _).
  assert (Z.abs t <= 8640000000000000);
    [| destruct (Z.leb_spec (Z.abs t) 8640000000000000); [now exists t | lia]].
  unfold t, MakeDay.
  set (ym := Y + (mo - 1) / 12). set (mn := (mo - 1) mod 12).
  assert (Hym : -1 <= ym <= 10008)
    by (unfold ym; Z.div_mod_to_equations; lia).
  assert (Hmn : 0 <= mn <= 11) by (unfold mn; Z.div_mod_to_equations; lia).
  pose proof (MonthStart_bounds (DaysInYear ym - 365) mn
                ltac:(destruct (DaysInYear_cases ym); lia) ltac:(lia)) as Hb.
  unfold MakeDate, MakeTime, DayFromYear, msPerDay, msPerHour, msPerMinute,
    msPerSecond.
  destruct (DaysInYear_cases ym).
  all: Z.div_mod_to_equations; lia.
Qed.

Section MatchedDates.

Variable Date_parse : string -> option Z.

(** A timestamp in which the date pattern is found anywhere is never
    refused: whatever the fourteen digits are (month 00 or 99, day 00 or
    99, hour 99), [formatDate] returns a string, so such a timestamp cannot
    abort a load. *)
Theorem matched_timestamp_never_throws (ts : value) (m : date_groups) :
  date_regex_exec (to_string ts) = Some m ->
  exists out, formatDate Date_parse ts = Normal out.
Proof.
  intro Hm. unfold formatDate.
  destruct (truthy ts); cbn [negb]; [| now exists ""].
  rewrite Hm.
  destruct (date_regex_exec_bounds _ _ Hm) as (Hy & Hmo & Hd & Hh & Hmi & Hs).
  destruct (UTC_of_two_digit_fields _ _ _ _ _ _ Hy Hmo Hd Hh Hmi Hs)
    as [t Ht].
  rewrite Ht. cbn [toISOString bind]. eauto.
Qed.

(** What [formatDate] computes on fourteen digits read as numbers. *)
Lemma formatDate_fields (y mo d h mi s : Z) (rest : string) :
  0 <= y <= 9999 -> 0 <= mo <= 99 -> 0 <= d <= 99 ->
  0 <= h <= 99 -> 0 <= mi <= 99 -> 0 <= s <= 99 ->
  formatDate Date_parse
    (VStr ("D:" ++ digits 4 y ++ digits 2 mo ++ digits 2 d ++ digits 2 h
                ++ digits 2 mi ++ digits 2 s ++ rest))
  = bind (toISOString (UTC y (mo - 1) d h mi s))
         (fun iso => Normal (replace (replace iso "T" " ") ".000Z" "Z")).
Proof.
  intros Hy Hmo Hd Hh Hmi Hs. unfold formatDate.
  replace (truthy (VStr ("D:" ++ digits 4 y ++ digits 2 mo ++ digits 2 d
                              ++ digits 2 h ++ digits 2 mi ++ digits 2 s ++ rest)))
    with true by reflexivity.
  cbn [negb to_string]. rewrite date_regex_exec_digits.
  cbn [g_y g_mo g_d g_h g_mi g_s].
  rewrite to_number_digits4 by lia. now rewrite !to_number_digits2 by lia.
Qed.

(** A day number past the end of its month is not refused either: the date
    rolls over into the next month.  With the last day of the month being
    [DaysInMonth y mo], day [DaysInMonth y mo + k] of month [mo] comes back
    as day [k] of month [mo + 1]. *)
Theorem day_overflow_rolls_over (y mo k h mi s : Z) (rest : string) :
  100 <= y <= 9999 -> 1 <= mo <= 11 ->
  1 <= k <= DaysInMonth y (mo + 1) -> DaysInMonth y mo + k <= 99 ->
  0 <= h <= 23 -> 0 <= mi <= 59 -> 0 <= s <= 59 ->
  formatDate Date_parse
    (VStr ("D:" ++ digits 4 y ++ digits 2 mo
                ++ digits 2 (DaysInMonth y mo + k) ++ digits 2 h
                ++ digits 2 mi ++ digits 2 s ++ rest))
  = Normal (digits 4 y ++ "-" ++ digits 2 (mo + 1) ++ "-" ++ digits 2 k
              ++ " " ++ digits 2 h ++ ":" ++ digits 2 mi ++ ":" ++ digits 2 s
              ++ "Z").
Proof.
  intros Hy Hmo Hk Hd Hh Hmi Hs.
  pose proof (DaysInMonth_bounds y mo ltac:(lia)) as Hdim.
  pose proof (DaysInMonth_bounds y (mo + 1) ltac:(lia)) as Hdim'.
  assert (HY : MakeFullYear y = y).
  { unfold MakeFullYear. destruct (Z.leb_spec y 99); [lia |].
    now rewrite andb_false_r. }
  rewrite formatDate_fields by lia.
  assert (E : UTC y (mo - 1) (DaysInMonth y mo + k) h mi s
              = UTC y (mo + 1 - 1) k h mi s).
  { unfold UTC. rewrite HY. do 2 f_equal.
    rewrite !MakeDay_in_year by lia. unfold DaysInMonth.
    replace (mo + 1 - 1) with mo by lia. lia. }
  rewrite E, <- (formatDate_fields y (mo + 1) k h mi s rest) by lia.
  rewrite formatDate_digits by (rewrite ?HY; lia).
  now rewrite HY.
Qed.

End MatchedDates.

Lemma matched_timestamp_never_throws_witness :
  exists out,
    formatDate iso_Date_parse (VStr "modified D:20239999999999+02'00'")
    = Normal out.
Proof.
  apply (matched_timestamp_never_throws iso_Date_parse
           (VStr "modified D:20239999999999+02'00'")
           {| g_y := "2023"; g_mo := "99"; g_d := "99";
              g_h := "99"; g_mi := "99"; g_s := "99" |}).
  reflexivity.
Defined.

Lemma day_overflow_rolls_over_witness :
  formatDate iso_Date_parse (VStr "D:20230230101500")
  = Normal "2023-03-02 10:15:00Z".
Proof.
  assert (H1 : 100 <= 2023 <= 9999) by lia.
  assert (H2 : 1 <= 2 <= 11) by lia.
  assert (H3 : 1 <= 2 <= DaysInMonth 2023 (2 + 1)) by (vm_compute; intuition discriminate).
  assert (H4 : DaysInMonth 2023 2 + 2 <= 99) by (vm_compute; discriminate).
  assert (H5 : 0 <= 10 <= 23) by lia.
  assert (H6 : 0 <= 15 <= 59) by lia.
  assert (H7 : 0 <= 0 <= 59) by lia.
  exact (day_overflow_rolls_over iso_Date_parse 2023 2 2 10 15 0 ""
           H1 H2 H3 H4 H5 H6 H7).
Defined.

(** ** Extraction, page by page *)

Section PageByPage.

Variable Date_parse : string -> option Z.

(** The page number only ends up in the entry. *)
Lemma process_annotation_shift (p q : Z) (a : annotation) :
  process_annotation Date_parse q a
  = match process_annotation Date_parse p a with
    | Normal (Some c) => Normal (Some (shift_page (q - p) c))
    | Normal None => Normal None
    | Throw e => Throw e
    end.
Proof.
  unfold process_annotation.
  destruct (negb (strict_eq_string (extract_subtype a) "Text")); [reflexivity |].
  destruct (truthy (extract_contents a)); [| reflexivity].
  destruct (extract_contents a) as [| | | | s | |]; try reflexivity.
  destruct (negb (trim s =? "")%string); [| reflexivity].
  destruct (formatDate Date_parse (extract_mod a)) as [m | e]; [| reflexivity].
  cbn [bind]. unfold shift_page. cbn [Page Author Comment Modified].
  do 3 f_equal. lia.
Qed.

Lemma process_annots_found (p : Z) (annots : list annotation)
    (found : list CommentEntry) :
  process_annots Date_parse p annots found
  = match process_annots Date_parse p annots [] with
    | Normal f => Normal (found ++ f)%list
    | Throw e => Throw e
    end.
Proof.
  revert found. induction annots as [| a rest IH]; intro found.
  - cbn [process_annots]. now rewrite app_nil_r.
  - cbn [process_annots].
    destruct (process_annotation Date_parse p a) as [o | e]; [| reflexivity].
    cbn [bind]. rewrite IH. rewrite (IH match o with
                                          | Some c => ([] ++ [c])%list
                                          | None => []
                                          end).
    destruct (process_annots Date_parse p rest []) as [f | e]; [| reflexivity].
    destruct o; [now rewrite <- app_assoc | reflexivity].
Qed.

Lemma process_annots_shift (p q : Z) (annots : list annotation) :
  process_annots Date_parse q annots []
  = match process_annots Date_parse p annots [] with
    | Normal f => Normal (map (shift_page (q - p)) f)
    | Throw e => Throw e
    end.
Proof.
  induction annots as [| a rest IH]; [reflexivity |].
  cbn [process_annots]. rewrite (process_annotation_shift p q a).
  destruct (process_annotation Date_parse p a) as [[c |] | e];
    cbn [bind]; [| exact IH | reflexivity].
  rewrite process_annots_found, IH.
  rewrite (process_annots_found p rest ([] ++ [c])).
  destruct (process_annots Date_parse p rest []) as [f | e]; [| reflexivity].
  now rewrite map_app.
Qed.

Lemma process_pages_found (p : Z) (pages : list (list annotation))
    (found : list CommentEntry) :
  process_pages Date_parse p pages found
  = match process_pages Date_parse p pages [] with
    | Normal f => Normal (found ++ f)%list
    | Throw e => Throw e
    end.
Proof.
  revert p found. induction pages as [| annots rest IH]; intros p found.
  - cbn [process_pages]. now rewrite app_nil_r.
  - cbn [process_pages]. rewrite process_annots_found.
    destruct (process_annots Date_parse p annots []) as [f | e]; [| reflexivity].
    cbn [bind]. rewrite IH, (IH (p + 1) f).
    destruct (process_pages Date_parse (p + 1) rest []) as [f' | e];
      [| reflexivity].
    now rewrite <- app_assoc.
Qed.

Lemma process_pages_shift (p q : Z) (pages : list (list annotation)) :
  process_pages Date_parse q pages []
  = match process_pages Date_parse p pages [] with
    | Normal f => Normal (map (shift_page (q - p)) f)
    | Throw e => Throw e
    end.
Proof.
  revert p q. induction pages as [| annots rest IH]; intros p q; [reflexivity |].
  cbn [process_pages]. rewrite (process_annots_shift p q annots).
  destruct (process_annots Date_parse p annots []) as [f | e]; [| reflexivity].
  cbn [bind]. rewrite process_pages_found, (IH (p + 1) (q + 1)).
  rewrite (process_pages_found (p + 1) rest f).
  replace (q + 1 - (p + 1)) with (q - p) by lia.
  destruct (process_pages Date_parse (p + 1) rest []) as [f' | e];
    [| reflexivity].
  now rewrite map_app.
Qed.

Lemma extract_app (first second : pdf_document) :
  extract Date_parse (first ++ second)%list
  = match extract Date_parse first with
    | Normal f1 =>
        match extract Date_parse second with
        | Normal f2 =>
            Normal (f1 ++ map (shift_page (Z.of_nat (List.length first))) f2)%list
        | Throw e => Throw e
        end
    | Throw e => Throw e
    end.
Proof.
  unfold extract. rewrite process_pages_app.
  destruct (process_pages Date_parse 1 first []) as [f1 | e]; [| reflexivity].
  cbn [bind]. rewrite process_pages_found.
  rewrite (process_pages_shift 1 (1 + Z.of_nat (List.length first)) second).
  replace (1 + Z.of_nat (List.length first) - 1)
    with (Z.of_nat (List.length first)) by lia.
  now destruct (process_pages Date_parse 1 second []).
Qed.

(** Extraction works page by page.  A document made of two runs of pages
    loads without error exactly when each run, taken as a document of
    its own, does; its entries are then those of the first run followed by
    those of the second, whose page numbers are moved by the number of
    pages of the first.  An exception in either run leaves nothing of the
    other. *)
Theorem load_of_joined_documents (first second : pdf_document) :
  let whole := handleFileSelect Date_parse (first ++ second)%list in
  let one := handleFileSelect Date_parse first in
  let two := handleFileSelect Date_parse second in
  (error whole = None <-> error one = None /\ error two = None)
  /\ (error whole = None ->
      comments whole
      = (comments one
           ++ map (shift_page (Z.of_nat (List.length first))) (comments two))%list)
  /\ (error whole <> None -> comments whole = []).
Proof.
  unfold handleFileSelect. rewrite extract_app.
  destruct (extract Date_parse first) as [f1 | e1],
           (extract Date_parse second) as [f2 | e2];
    cbn [error comments]; repeat split;
    try tauto; try discriminate; try (intros [H1 H2]; discriminate);
    try (intro H; now elim H).
Qed.

Lemma no_text_no_entry (p : Z) (annots : list annotation)
    (found : list CommentEntry) :
  filter (fun a => strict_eq_string (extract_subtype a) "Text") annots = [] ->
  process_annots Date_parse p annots found = Normal found.
Proof.
  induction annots as [| a rest IH]; [reflexivity |].
  cbn [filter process_annots]. unfold process_annotation at 1.
  destruct (strict_eq_string (extract_subtype a) "Text"); [discriminate |].
  exact IH.
Qed.

Lemma page_entries_count (p : Z) (annots : list annotation) :
  (List.length (page_entries Date_parse p annots)
   <= List.length
        (filter (fun a => strict_eq_string (extract_subtype a) "Text") annots))%nat.
Proof.
  induction annots as [| a rest IH]; [apply Nat.le_refl |].
  unfold page_entries in *. cbn [flat_map filter].
  rewrite length_app.
  unfold process_annotation at 1.
  destruct (strict_eq_string (extract_subtype a) "Text"); cbn [negb].
  - cbn [List.length].
    match goal with
    | |- (List.length ?x + _ <= _)%nat =>
        assert (List.length x <= 1)%nat
    end.
    { destruct (truthy (extract_contents a)); [| cbn; lia].
      destruct (extract_contents a); try (cbn; lia).
      destruct (negb (trim s =? "")%string); [| cbn; lia].
      destruct (formatDate Date_parse (extract_mod a)); cbn; lia. }
    lia.
  - cbn [List.length]. exact IH.
Qed.

Lemma document_entries_count (p : Z) (pages : list (list annotation)) :
  (List.length (document_entries Date_parse p pages)
   <= text_annotations pages)%nat.
Proof.
  revert p. unfold text_annotations.
  induction pages as [| annots rest IH]; intro p; [apply Nat.le_refl |].
  cbn [document_entries List.concat]. rewrite filter_app, !length_app.
  pose proof (page_entries_count p annots). specialize (IH (p + 1)). lia.
Qed.

(** The entries of a load come from the annotations that pass the subtype
    filter: at most one entry each.  A document in which no annotation
    passes it loads without error, with no entry and with the warning,
    whatever its annotations hold besides. *)
Theorem entries_from_text_annotations (pdf : pdf_document) :
  (List.length (comments (handleFileSelect Date_parse pdf))
   <= text_annotations pdf)%nat
  /\ (text_annotations pdf = 0%nat ->
      handleFileSelect Date_parse pdf
      = {| comments := []; error := None; noCommentsWarning := true |}).
Proof.
  split.
  - destruct (handleFileSelect_comments Date_parse pdf) as [-> | ->];
      [apply document_entries_count | cbn [List.length]; lia].
  - intro H. unfold handleFileSelect, extract.
    assert (Hp : forall pages p found,
               text_annotations pages = 0%nat ->
               process_pages Date_parse p pages found = Normal found).
    { clear. unfold text_annotations.
      induction pages as [| annots rest IH]; intros p found H; [reflexivity |].
      cbn [List.concat] in H. rewrite filter_app, length_app in H.
      cbn [process_pages].
      rewrite no_text_no_entry by (apply length_zero_iff_nil; lia).
      cbn [bind]. apply IH. lia. }
    now rewrite Hp.
Qed.

End PageByPage.

Lemma load_of_joined_documents_witness :
  comments (handleFileSelect iso_Date_parse ([[alice_note; highlight]] ++ [[fix_note]])%list)
  = (comments (handleFileSelect iso_Date_parse [[alice_note; highlight]])
       ++ map (shift_page 1) (comments (handleFileSelect iso_Date_parse [[fix_note]])))%list.
Proof.
  destruct (load_of_joined_documents iso_Date_parse
              [[alice_note; highlight]] [[fix_note]]) as (_ & H & _).
  apply H. reflexivity.
Defined.

Lemma entries_from_text_annotations_witness :
  handleFileSelect iso_Date_parse
    [[highlight]; [[("subtype", VStr "Stamp"); ("contents", VNum 7)]]]
  = {| comments := []; error := None; noCommentsWarning := true |}.
Proof.
  destruct (entries_from_text_annotations iso_Date_parse
              [[highlight]; [[("subtype", VStr "Stamp"); ("contents", VNum 7)]]])
    as [_ H].
  apply H. reflexivity.
Defined.

(** ** The component state over a session *)

Section Sessions.

Variable Date_parse : string -> option Z.

(** A load from a state without warning leaves what [handleFileSelect]
    computes. *)
Lemma App_load_agrees (name : string) (pdf : pdf_document) (st : App.state) :
  App.noCommentsWarning st = false ->
  let st' := App.run Date_parse
               (App.events_of (App.Load name (Some pdf))) st in
  App.comments st' = comments (handleFileSelect Date_parse pdf)
  /\ App.error st'
     = option_map App.Thrown (error (handleFileSelect Date_parse pdf))
  /\ App.noCommentsWarning st'
     = noCommentsWarning (handleFileSelect Date_parse pdf).
Proof.
  intro Hw. cbn. unfold handleFileSelect.
  destruct (extract Date_parse pdf) as [found | e]; cbn; repeat split.
  - now rewrite Hw; destruct (List.length found =? 0)%nat.
  - exact Hw.
Qed.

Lemma App_action_consistent (a : App.action) (st : App.state) :
  let ok := fun s =>
    App.loading s = false
    /\ (App.error s <> None -> App.comments s = [])
    /\ (App.file s = None -> App.comments s = [] /\ App.error s = None)
    /\ App.fileName s
       = match App.file s with Some n => n | None => "" end in
  ok st -> ok (App.run Date_parse (App.events_of a) st).
Proof.
  intros ok (H1 & H2 & H3 & H4). unfold ok.
  destruct a as [name [pdf |] | | m |]; cbn.
  - destruct (extract Date_parse pdf) as [found | e]; cbn;
      repeat split; try discriminate; try tauto; intro H; now elim H.
  - repeat split; discriminate.
  - repeat split; try discriminate; tauto.
  - tauto.
  - tauto.
Qed.

(** Over a session in which each load is over before the next thing
    happens, whatever the files and whatever the user does: when the last
    handler returns nothing is loading; an error message is never shown
    together with entries; without a file there is no entry and no error,
    so that the upload box is shown exactly when no file is held; and the
    name shown is the name of the file held. *)
Theorem session_state_consistent (actions : list App.action) :
  let st := App.run Date_parse (flat_map App.events_of actions) App.initial in
  App.loading st = false
  /\ (App.error st <> None -> App.comments st = [])
  /\ (App.upload_screen st = true <-> App.file st = None)
  /\ (App.file st = None -> App.error st = None)
  /\ App.fileName st = match App.file st with Some n => n | None => "" end.
Proof.
  intro st.
  assert (H : App.loading st = false
              /\ (App.error st <> None -> App.comments st = [])
              /\ (App.file st = None ->
                  App.comments st = [] /\ App.error st = None)
              /\ App.fileName st
                 = match App.file st with Some n => n | None => "" end).
  { unfold st. clear st.
    assert (G : forall s0,
               (App.loading s0 = false
                /\ (App.error s0 <> None -> App.comments s0 = [])
                /\ (App.file s0 = None ->
                    App.comments s0 = [] /\ App.error s0 = None)
                /\ App.fileName s0
                   = match App.file s0 with Some n => n | None => "" end) ->
               let s := App.run Date_parse
                          (flat_map App.events_of actions) s0 in
               App.loading s = false
               /\ (App.error s <> None -> App.comments s = [])
               /\ (App.file s = None ->
                   App.comments s = [] /\ App.error s = None)
               /\ App.fileName s
                  = match App.file s with Some n => n | None => "" end).
    { induction actions as [| a rest IH]; intros s0 H0; [exact H0 |].
      cbn [flat_map]. unfold App.run. rewrite fold_left_app.
      apply IH. exact (App_action_consistent a s0 H0). }
    apply G. cbn. repeat split; discriminate. }
  destruct H as (H1 & H2 & H3 & H4).
  repeat split; trivial.
  - unfold App.upload_screen. destruct (App.file st); [discriminate | trivial].
  - intro E. unfold App.upload_screen. rewrite E.
    now destruct (H3 E) as [-> _].
  - intro E. now destruct (H3 E).
Qed.

End Sessions.

(** Two loads that overlap escape it: a second file is dropped while the
    first is still being read and is refused by the parser; when the first
    load then completes its entries are shown under the name and the error
    of the second. *)
Example overlapping_loads :
  let st := App.run iso_Date_parse
              [App.Started (Some "first.pdf"); App.Started (Some "second.pdf");
               App.Finished None; App.Finished (Some two_pages)]
              App.initial in
  App.file st = Some "second.pdf"
  /\ App.error st = Some App.ParserFailed
  /\ App.comments st = two_entries.
Proof. repeat split. Qed.
